(** * Work-Eye-Tracker: the capture / persist / sync pipeline

    A shallow embedding of the three core modules of the application
    ([src/core/eye_tracker.py], [src/core/system_monitor.py] and
    [src/core/data_manager.py]) and the properties their specification
    states about them.

    Conventions of the embedding:
    - a Python [datetime] is the number of microseconds since the epoch and a
      [timedelta] a signed number of microseconds (the resolution of both
      types), so [datetime.now()] is an explicit argument or a clock read;
    - Python floats are rationals ([Q]): rounding is not modelled;
    - every object is a record and every method a function from the old
      state to the new one; Qt signals are returned as the list of emitted
      signals, in emission order;
    - the SQLite file is the in-memory [Database] of four tables; its
      statements are total on that model, so the [except] branches that only
      an [sqlite3] error reaches do not appear. *)

From Stdlib Require Import ZArith QArith Qminmax Bool List Sorted Lia.
From Stdlib Require Import Ascii String DecimalString.
Import ListNotations.

Local Open Scope Z_scope.

(** ** Python values shared by the three modules *)

Definition datetime := Z.
Definition timedelta := Z.

Definition timedelta_of_minutes (m : Z) : timedelta := m * 60000000.
Definition timedelta_of_days (d : Z) : timedelta := d * 86400000000.

(** [timedelta.total_seconds()] *)
Definition total_seconds (d : timedelta) : Q := d # 1000000.

(** [a < b] on floats. *)
Definition Qltb (a b : Q) : bool := negb (Qle_bool b a).

(** The builtin [max(a, b)]: the first argument unless the second is
    strictly larger. *)
Definition py_max (a b : Q) : Q := if Qltb a b then b else a.

(** ["%d" % n] *)
Definition str_of_int (n : Z) : string := NilZero.string_of_int (Z.to_int n).

(** ["%0<w>d" % n] for a non-negative [n]: left-padded with zeros. *)
Definition zero_pad (w : nat) (s : string) : string :=
  (string_of_list_ascii (repeat "0"%char (w - String.length s)) ++ s)%string.

Definition str_of_int_padded (w : nat) (n : Z) : string :=
  zero_pad w (str_of_int n).

(** [str(timedelta)]: the normalised days, seconds and microseconds printed
    as ["[D day[s], ]H:MM:SS[.UUUUUU]"]. *)
Definition timedelta_str (d : timedelta) : string :=
  let days := d / 86400000000 in
  let rest := d mod 86400000000 in
  let seconds := rest / 1000000 in
  let microseconds := rest mod 1000000 in
  let mm := seconds / 60 in
  let ss := seconds mod 60 in
  let hh := mm / 60 in
  let mm := mm mod 60 in
  let s := (str_of_int hh ++ ":" ++ str_of_int_padded 2 mm ++ ":"
              ++ str_of_int_padded 2 ss)%string in
  let plural := if Z.abs days =? 1 then ""%string else "s"%string in
  let s := if days =? 0 then s
           else (str_of_int days ++ " day" ++ plural ++ ", " ++ s)%string in
  if microseconds =? 0 then s
  else (s ++ "." ++ str_of_int_padded 6 microseconds)%string.

(** [s.split(sep)[0]] for a one-character separator. *)
Fixpoint split_head (sep : ascii) (s : string) : string :=
  match s with
  | EmptyString => EmptyString
  | String c s' => if Ascii.eqb c sep then EmptyString else String c (split_head sep s')
  end.

(** ** [src/core/eye_tracker.py] *)

Module EyeTracker.

(** The fields of [EyeTracker.__init__] that hold data.  The capture
    device, the two classifiers and the thread handle are owned by OpenCV
    and the runtime: [start] receives whether they could be acquired. *)
Record t := mk {
  is_running : bool;
  camera_available : bool;
  total_blinks : Z;
  session_start_time : option datetime;
  last_blink_time : option datetime;
  blink_history : list datetime;
  should_stop : bool;
  simulation_mode : bool;
  simulation_timer : option Z   (* armed interval in ms, if any *)
}.

Inductive signal := blink_detected | tracking_started | tracking_stopped.

Definition init : t :=
  {| is_running := false; camera_available := false; total_blinks := 0;
     session_start_time := None; last_blink_time := None;
     blink_history := []; should_stop := false; simulation_mode := false;
     simulation_timer := None |}.

(** [start]: [camera_ok] is the value of
    [self._initialize_camera() and self._load_cascades()] and [interval]
    the draw of [random.randint(3000, 8000)]. *)
Definition start (now : datetime) (camera_ok : bool) (interval : Z) (s : t)
  : t * list signal :=
  if is_running s then (s, [])
  else
    ({| is_running := true;
        camera_available := camera_ok;
        total_blinks := 0;
        session_start_time := Some now;
        last_blink_time := last_blink_time s;
        blink_history := [];
        should_stop := false;
        simulation_mode := negb camera_ok;
        simulation_timer := if negb camera_ok then Some interval
                            else simulation_timer s |},
     [tracking_started]).

Definition stop (s : t) : t * list signal :=
  if negb (is_running s) then (s, [])
  else
    ({| is_running := false;
        camera_available := camera_available s;
        total_blinks := total_blinks s;
        session_start_time := session_start_time s;
        last_blink_time := last_blink_time s;
        blink_history := blink_history s;
        should_stop := true;
        simulation_mode := simulation_mode s;
        simulation_timer := if simulation_mode s then None
                            else simulation_timer s |},
     [tracking_stopped]).

(** [_record_blink] *)
Definition _record_blink (now : datetime) (s : t) : t * list signal :=
  let current_time := now in
  let history := blink_history s ++ [current_time] in
  let cutoff_time := current_time - timedelta_of_minutes 5 in
  ({| is_running := is_running s;
      camera_available := camera_available s;
      total_blinks := total_blinks s + 1;
      session_start_time := session_start_time s;
      last_blink_time := Some current_time;
      blink_history := filter (fun t => cutoff_time <? t) history;
      should_stop := should_stop s;
      simulation_mode := simulation_mode s;
      simulation_timer := simulation_timer s |},
   [blink_detected]).

(** [_simulate_blink]: the timer slot of simulation mode. *)
Definition _simulate_blink (now : datetime) (interval : Z) (s : t)
  : t * list signal :=
  let '(s1, out) := _record_blink now s in
  ({| is_running := is_running s1;
      camera_available := camera_available s1;
      total_blinks := total_blinks s1;
      session_start_time := session_start_time s1;
      last_blink_time := last_blink_time s1;
      blink_history := blink_history s1;
      should_stop := should_stop s1;
      simulation_mode := simulation_mode s1;
      simulation_timer := Some interval |},
   out).

(** One iteration of [_tracking_loop] after the frame was analysed:
    [eyes_detected] is what the classifiers reported, the [nat] is the
    local [eye_closed_frames]. *)
Definition blink_threshold : nat := 5.

Definition track_frame (now : datetime) (eyes_detected : bool)
    (st : t * nat) : (t * nat) * list signal :=
  let '(s, eye_closed_frames) := st in
  if negb eyes_detected then ((s, S eye_closed_frames), [])
  else if (blink_threshold <=? eye_closed_frames)%nat
       then let '(s1, out) := _record_blink now s in ((s1, O), out)
       else ((s, O), []).

(** The dictionary returned by [get_current_data]. *)
Record data := mk_data {
  d_total_blinks : Z;
  d_blinks_per_minute : Q;
  d_session_duration : string;
  d_last_blink : option datetime;
  d_is_tracking : bool;
  d_camera_available : bool;
  d_simulation_mode : bool
}.

Definition session_minutes (now start : datetime) : Q :=
  py_max 1 (total_seconds (now - start)%Z / 60)%Q.

Definition get_current_data (now : datetime) (s : t) : data :=
  let current_time := now in
  let duration_str :=
    match session_start_time s with
    | Some start => split_head "." (timedelta_str (current_time - start))
    | None => "00:00:00"%string
    end in
  let blinks_per_minute :=
    match session_start_time s with
    | Some start =>
        (inject_Z (total_blinks s) / session_minutes current_time start)%Q
    | None => 0%Q
    end in
  {| d_total_blinks := total_blinks s;
     d_blinks_per_minute := blinks_per_minute;
     d_session_duration := duration_str;
     d_last_blink := last_blink_time s;
     d_is_tracking := is_running s;
     d_camera_available := camera_available s;
     d_simulation_mode := simulation_mode s |}.

Definition get_blink_history (s : t) : list datetime := blink_history s.

Definition reset_session (now : datetime) (s : t) : t :=
  {| is_running := is_running s;
     camera_available := camera_available s;
     total_blinks := 0;
     session_start_time := Some now;
     last_blink_time := last_blink_time s;
     blink_history := [];
     should_stop := should_stop s;
     simulation_mode := simulation_mode s;
     simulation_timer := simulation_timer s |}.

(** The sampler after the blinks emitted at the times [ts], in order. *)
Definition record_blinks (ts : list datetime) (s : t) : t :=
  fold_left (fun s now => fst (_record_blink now s)) ts s.

(** The frames [_tracking_loop] analyses one after the other, each with the
    time at which it was analysed and what the classifiers saw. *)
Definition track_frames (frames : list (datetime * bool)) (st : t * nat)
  : t * nat :=
  fold_left (fun st f => fst (track_frame (fst f) (snd f) st)) frames st.

Definition is_camera_available (s : t) : bool := camera_available s.

(** What can happen to a sampler between [start] and [stop]: a frame of the
    tracking loop, a fire of the simulation timer, a call of
    [reset_session]. *)
Inductive event :=
| Frame (now : datetime) (eyes_detected : bool)
| TimerFired (now : datetime) (interval : Z)
| SessionReset (now : datetime).

Definition handle (ev : event) (st : t * nat) : t * nat :=
  match ev with
  | Frame now eyes => fst (track_frame now eyes st)
  | TimerFired now interval => (fst (_simulate_blink now interval (fst st)), snd st)
  | SessionReset now => (reset_session now (fst st), snd st)
  end.

Definition handle_all (evs : list event) (st : t * nat) : t * nat :=
  fold_left (fun st ev => handle ev st) evs st.

End EyeTracker.

(** ** [src/core/system_monitor.py] *)

(** Exceptions and the result of a call that may raise one. *)
Inductive exn :=
| OSError (msg : string)          (* [socket.error], [socket.timeout], ... *)
| ZeroDivisionError
| OtherException (msg : string).

Inductive outcome (A : Type) :=
| Returns (a : A)
| Raises (e : exn).
Arguments Returns {A} a.
Arguments Raises {A} e.

Module SystemMonitor.

(** [self.current_metrics], a dictionary with a fixed set of keys. *)
Record metrics := mk_metrics {
  cpu_percent : Q;
  memory_percent : Q;
  memory_used_mb : Q;
  memory_total_mb : Q;
  disk_usage_percent : Q;
  network_available : bool;
  battery_percent : option Q;
  power_connected : option bool;
  process_count : Z;
  boot_time : option datetime
}.

Definition set_cpu_percent v m :=
  mk_metrics v (memory_percent m) (memory_used_mb m) (memory_total_mb m)
    (disk_usage_percent m) (network_available m) (battery_percent m)
    (power_connected m) (process_count m) (boot_time m).
Definition set_memory_percent v m :=
  mk_metrics (cpu_percent m) v (memory_used_mb m) (memory_total_mb m)
    (disk_usage_percent m) (network_available m) (battery_percent m)
    (power_connected m) (process_count m) (boot_time m).
Definition set_memory_used_mb v m :=
  mk_metrics (cpu_percent m) (memory_percent m) v (memory_total_mb m)
    (disk_usage_percent m) (network_available m) (battery_percent m)
    (power_connected m) (process_count m) (boot_time m).
Definition set_memory_total_mb v m :=
  mk_metrics (cpu_percent m) (memory_percent m) (memory_used_mb m) v
    (disk_usage_percent m) (network_available m) (battery_percent m)
    (power_connected m) (process_count m) (boot_time m).
Definition set_disk_usage_percent v m :=
  mk_metrics (cpu_percent m) (memory_percent m) (memory_used_mb m)
    (memory_total_mb m) v (network_available m) (battery_percent m)
    (power_connected m) (process_count m) (boot_time m).
Definition set_network_available v m :=
  mk_metrics (cpu_percent m) (memory_percent m) (memory_used_mb m)
    (memory_total_mb m) (disk_usage_percent m) v (battery_percent m)
    (power_connected m) (process_count m) (boot_time m).
Definition set_battery_percent v m :=
  mk_metrics (cpu_percent m) (memory_percent m) (memory_used_mb m)
    (memory_total_mb m) (disk_usage_percent m) (network_available m) v
    (power_connected m) (process_count m) (boot_time m).
Definition set_power_connected v m :=
  mk_metrics (cpu_percent m) (memory_percent m) (memory_used_mb m)
    (memory_total_mb m) (disk_usage_percent m) (network_available m)
    (battery_percent m) v (process_count m) (boot_time m).
Definition set_process_count v m :=
  mk_metrics (cpu_percent m) (memory_percent m) (memory_used_mb m)
    (memory_total_mb m) (disk_usage_percent m) (network_available m)
    (battery_percent m) (power_connected m) v (boot_time m).
Definition set_boot_time v m :=
  mk_metrics (cpu_percent m) (memory_percent m) (memory_used_mb m)
    (memory_total_mb m) (disk_usage_percent m) (network_available m)
    (battery_percent m) (power_connected m) (process_count m) v.

(** What [psutil] and the socket layer answer during one tick.  The
    named tuples keep the fields the module reads. *)
Record svmem := { percent : Q; used : Z; total : Z }.
Record sdiskusage := { du_total : Z; du_used : Z }.
Record sbattery := { b_percent : Q; power_plugged : option bool }.

Record host := mk_host {
  psutil_cpu_percent : outcome Q;
  psutil_virtual_memory : outcome svmem;
  has_disk_usage : bool;                   (* hasattr(psutil, 'disk_usage') *)
  psutil_disk_usage : outcome sdiskusage;
  socket_connect : outcome unit;           (* connect(("8.8.8.8", 53)), 3 s timeout *)
  has_sensors_battery : bool;              (* hasattr(psutil, 'sensors_battery') *)
  psutil_sensors_battery : outcome (option sbattery);
  psutil_pids : outcome (list Z)
}.

(** Statements that update [self.current_metrics] in place and may raise:
    an assignment made before the exception stays made. *)
Definition M (A : Type) : Type := metrics -> outcome A * metrics.

Definition ret {A} (a : A) : M A := fun m => (Returns a, m).
Definition bind {A B} (c : M A) (k : A -> M B) : M B :=
  fun m => match c m with
           | (Returns a, m') => k a m'
           | (Raises e, m') => (Raises e, m')
           end.
Definition call {A} (r : outcome A) : M A := fun m => (r, m).
Definition assign (f : metrics -> metrics) : M unit := fun m => (Returns tt, f m).
Definition try_except {A} (body : M A) (handler : exn -> M A) : M A :=
  fun m => match body m with
           | (Returns a, m') => (Returns a, m')
           | (Raises e, m') => handler e m'
           end.

Declare Scope monitor_scope.
Delimit Scope monitor_scope with monitor.
Notation "x <- c ;; k" := (bind c (fun x => k))
  (at level 61, c at next level, right associativity) : monitor_scope.
Notation "c ;; k" := (bind c (fun _ => k))
  (at level 61, right associativity) : monitor_scope.
Local Open Scope monitor_scope.

(** [a / b] on two integers. *)
Definition true_div (a b : Z) : outcome Q :=
  if b =? 0 then Raises ZeroDivisionError else Returns (inject_Z a / inject_Z b)%Q.

(** The handlers only write a log line. *)
Definition log_error : exn -> M unit := fun _ => ret tt.

Definition _update_cpu_metrics (h : host) : M unit :=
  try_except
    (cpu <- call (psutil_cpu_percent h) ;;
     assign (set_cpu_percent cpu))
    log_error.

Definition _update_memory_metrics (h : host) : M unit :=
  try_except
    (memory <- call (psutil_virtual_memory h) ;;
     assign (set_memory_percent (percent memory)) ;;
     assign (set_memory_used_mb (inject_Z (used memory) / inject_Z (1024 * 1024))%Q) ;;
     assign (set_memory_total_mb (inject_Z (total memory) / inject_Z (1024 * 1024))%Q))
    log_error.

Definition _update_disk_metrics (h : host) : M unit :=
  try_except
    (if has_disk_usage h then
       disk <- call (psutil_disk_usage h) ;;
       ratio <- call (true_div (du_used disk) (du_total disk)) ;;
       assign (set_disk_usage_percent (ratio * 100)%Q)
     else ret tt)
    log_error.

Definition _update_network_status (h : host) : M unit :=
  try_except
    (call (socket_connect h) ;;
     assign (set_network_available true))
    (fun e =>
       match e with
       | OSError _ => assign (set_network_available false)
       | _ => log_error e ;; assign (set_network_available false)
       end).

Definition _update_battery_metrics (h : host) : M unit :=
  try_except
    (if has_sensors_battery h then
       battery <- call (psutil_sensors_battery h) ;;
       match battery with
       | Some b =>
           assign (set_battery_percent (Some (b_percent b))) ;;
           assign (set_power_connected (power_plugged b))
       | None =>
           (* Desktop/no battery *)
           assign (set_battery_percent None) ;;
           assign (set_power_connected (Some true))
       end
     else ret tt)
    log_error.

Definition _update_process_count (h : host) : M unit :=
  try_except
    (pids <- call (psutil_pids h) ;;
     assign (set_process_count (Z.of_nat (List.length pids))))
    log_error.

Inductive signal :=
| metrics_updated (snapshot : metrics)
| monitoring_started
| monitoring_stopped.

(** The body of the [while] of [_monitoring_loop]: one tick.  The value is
    the signal that carries the copy of the dictionary. *)
Definition tick (h : host) : M signal :=
  _update_cpu_metrics h ;;
  _update_memory_metrics h ;;
  _update_disk_metrics h ;;
  _update_network_status h ;;
  _update_battery_metrics h ;;
  _update_process_count h ;;
  (fun m => (Returns (metrics_updated m), m)).

(** [_monitoring_loop] over the ticks that happen before [should_stop] is
    seen: an exception that reaches the loop ends it. *)
Fixpoint _monitoring_loop (ticks : list host) (m : metrics)
  : metrics * list signal :=
  match ticks with
  | [] => (m, [])
  | h :: rest =>
      match tick h m with
      | (Returns sig, m') =>
          let '(m'', out) := _monitoring_loop rest m' in (m'', sig :: out)
      | (Raises _, m') => (m', [])
      end
  end.

(** [self.current_metrics] as [__init__] leaves it; [boot] is the answer
    of [psutil.boot_time()] in [_get_system_info]. *)
Definition init (boot : outcome datetime) : metrics :=
  {| cpu_percent := 0; memory_percent := 0; memory_used_mb := 0;
     memory_total_mb := 0; disk_usage_percent := 0;
     network_available := false; battery_percent := None;
     power_connected := None; process_count := 0;
     boot_time := match boot with Returns b => Some b | Raises _ => None end |}.

Definition get_current_data (m : metrics) : metrics := m.
Definition get_network_status (m : metrics) : bool := network_available m.
Definition get_battery_info (m : metrics) : option Q * option bool :=
  (battery_percent m, power_connected m).

(** A host with no battery: the sensor interface exists and answers
    [None]. *)
Definition no_battery (h : host) : Prop :=
  has_sensors_battery h = true /\ psutil_sensors_battery h = Returns None.

(** [get_power_impact_estimate] *)
Definition get_power_impact_estimate (m : metrics) : string :=
  let cpu_impact := cpu_percent m in
  if Qltb 80 cpu_impact then "High"
  else if Qltb 50 cpu_impact then "Medium"
  else if Qltb 20 cpu_impact then "Low"
  else "Very Low".

(** [get_system_uptime] *)
Definition get_system_uptime (now : datetime) (m : metrics) : string :=
  match boot_time m with
  | Some boot => split_head "." (timedelta_str (now - boot))
  | None => "Unknown"
  end.

Definition get_cpu_usage (m : metrics) : Q := cpu_percent m.
Definition get_memory_usage (m : metrics) : Q * Q * Q :=
  (memory_percent m, memory_used_mb m, memory_total_mb m).

(** The monitor object: the two flags and the dictionary.  The thread that
    [start] creates runs [_monitoring_loop] on [current_metrics]. *)
Record t := mk {
  is_running : bool;
  should_stop : bool;
  current_metrics : metrics
}.

Definition start (s : t) : t * list signal :=
  if is_running s then (s, [])
  else ({| is_running := true; should_stop := false;
           current_metrics := current_metrics s |},
        [monitoring_started]).

Definition stop (s : t) : t * list signal :=
  if negb (is_running s) then (s, [])
  else ({| is_running := false; should_stop := true;
           current_metrics := current_metrics s |},
        [monitoring_stopped]).

End SystemMonitor.

(** ** [src/core/data_manager.py] *)

Module DataManager.

(** *** The four tables of [_init_database]

    Columns as in the [CREATE TABLE] statements (the [created_at] audit
    column, filled by SQLite and never read, is left out); the [INTEGER]
    flags keep their integer values. *)
Record eye_session := mk_eye_session {
  es_id : Z;
  es_user_id : string;
  es_session_start : datetime;
  es_session_end : option datetime;
  es_total_blinks : Z;
  es_blinks_per_minute : Q;
  es_eye_strain_level : string;
  es_synced : Z
}.

Record system_metric := mk_system_metric {
  sm_id : Z;
  sm_user_id : string;
  sm_timestamp : datetime;
  sm_cpu_percent : Q;
  sm_memory_percent : Q;
  sm_memory_used_mb : Q;
  sm_disk_usage_percent : Q;
  sm_network_available : Z;
  sm_battery_percent : option Q;
  sm_power_connected : Z;
  sm_synced : Z
}.

Record blink_event := mk_blink_event {
  be_id : Z;
  be_user_id : string;
  be_session_id : option Z;
  be_timestamp : datetime;
  be_synced : Z
}.

Record sync_log_row := mk_sync_log_row {
  sl_id : Z;
  sl_sync_time : datetime;
  sl_records_synced : Z;
  sl_success : Z;
  sl_error_message : option string
}.

Record database := mk_database {
  eye_sessions : list eye_session;
  system_metrics : list system_metric;
  blink_events : list blink_event;
  sync_log : list sync_log_row
}.

Definition empty : database := mk_database [] [] [] [].

(** [INTEGER PRIMARY KEY AUTOINCREMENT]: one more than the largest id in
    use (no statement of the module deletes a row). *)
Definition next_id {A} (id : A -> Z) (rows : list A) : Z :=
  1 + fold_right Z.max 0 (map id rows).

(** [SELECT COUNT( * ) FROM t WHERE synced = 0] *)
Definition count_where {A} (p : A -> bool) (rows : list A) : Z :=
  Z.of_nat (List.length (filter p rows)).

(** *** The manager *)
Record t := mk {
  db : database;
  is_syncing : bool;
  last_sync_time : option datetime;
  pending_sync_count : Z
}.

Inductive signal :=
| data_saved (eye_data : EyeTracker.data) (system_data : SystemMonitor.metrics)
             (timestamp : datetime)
| sync_completed (success : bool)
| sync_status_changed (status : string).

(** [__init__] on the database file as the previous run left it. *)
Definition init (d : database) : t :=
  {| db := d; is_syncing := false; last_sync_time := None;
     pending_sync_count := 0 |}.

Definition with_db (d : database) (s : t) : t :=
  mk d (is_syncing s) (last_sync_time s) (pending_sync_count s).
Definition with_is_syncing (b : bool) (s : t) : t :=
  mk (db s) b (last_sync_time s) (pending_sync_count s).

Definition _get_current_user_id : string := "demo_user".

(** [1 if x else 0] *)
Definition int_of_truth (b : bool) : Z := if b then 1 else 0.
Definition truthy (b : option bool) : bool :=
  match b with Some true => true | _ => false end.

Definition save_session_data (now : datetime) (eye_data : EyeTracker.data)
    (system_data : SystemMonitor.metrics) (s : t) : t * list signal :=
  let d := db s in
  let user_id := _get_current_user_id in
  let current_time := now in
  let row :=
    {| sm_id := next_id sm_id (system_metrics d);
       sm_user_id := user_id;
       sm_timestamp := current_time;
       sm_cpu_percent := SystemMonitor.cpu_percent system_data;
       sm_memory_percent := SystemMonitor.memory_percent system_data;
       sm_memory_used_mb := SystemMonitor.memory_used_mb system_data;
       sm_disk_usage_percent := SystemMonitor.disk_usage_percent system_data;
       sm_network_available :=
         int_of_truth (SystemMonitor.network_available system_data);
       sm_battery_percent := SystemMonitor.battery_percent system_data;
       sm_power_connected :=
         int_of_truth (truthy (SystemMonitor.power_connected system_data));
       sm_synced := 0 |} in
  ({| db := mk_database (eye_sessions d) (system_metrics d ++ [row])
                        (blink_events d) (sync_log d);
      is_syncing := is_syncing s;
      last_sync_time := last_sync_time s;
      pending_sync_count := pending_sync_count s + 1 |},
   [data_saved eye_data system_data current_time]).

Definition save_blink_event (now : datetime) (user_id : string)
    (session_id : option Z) (s : t) : t :=
  let d := db s in
  let row :=
    {| be_id := next_id be_id (blink_events d);
       be_user_id := user_id;
       be_session_id := session_id;
       be_timestamp := now;
       be_synced := 0 |} in
  with_db (mk_database (eye_sessions d) (system_metrics d)
                       (blink_events d ++ [row]) (sync_log d)) s.

(** [start_eye_session]: the new state and [cursor.lastrowid].  The
    columns not named by the [INSERT] take their [DEFAULT]s. *)
Definition start_eye_session (now : datetime) (user_id : string) (s : t)
  : t * option Z :=
  let d := db s in
  let session_id := next_id es_id (eye_sessions d) in
  let row :=
    {| es_id := session_id;
       es_user_id := user_id;
       es_session_start := now;
       es_session_end := None;
       es_total_blinks := 0;
       es_blinks_per_minute := 0;
       es_eye_strain_level := "normal";
       es_synced := 0 |} in
  (with_db (mk_database (eye_sessions d ++ [row]) (system_metrics d)
                        (blink_events d) (sync_log d)) s,
   Some session_id).

(** The [strain_level] that [end_eye_session] determines. *)
Definition strain_level (blinks_per_minute : Q) : string :=
  if Qltb blinks_per_minute 10 then "high"
  else if Qltb blinks_per_minute 15 then "moderate"
  else "normal".

Definition end_eye_session (now : datetime) (session_id : Z)
    (total_blinks : Z) (blinks_per_minute : Q) (s : t) : t :=
  let d := db s in
  let strain_level := strain_level blinks_per_minute in
  let update (r : eye_session) :=
    if es_id r =? session_id then
      {| es_id := es_id r;
         es_user_id := es_user_id r;
         es_session_start := es_session_start r;
         es_session_end := Some now;
         es_total_blinks := total_blinks;
         es_blinks_per_minute := blinks_per_minute;
         es_eye_strain_level := strain_level;
         es_synced := es_synced r |}
    else r in
  with_db (mk_database (map update (eye_sessions d)) (system_metrics d)
                       (blink_events d) (sync_log d)) s.

Definition _get_unsynced_count (d : database) : Z :=
  let metrics_count := count_where (fun r => sm_synced r =? 0) (system_metrics d) in
  let sessions_count := count_where (fun r => es_synced r =? 0) (eye_sessions d) in
  let blinks_count := count_where (fun r => be_synced r =? 0) (blink_events d) in
  metrics_count + sessions_count + blinks_count.

(** [UPDATE t SET synced = 1 WHERE synced = 0], on each table. *)
Definition mark_metric (r : system_metric) : system_metric :=
  if sm_synced r =? 0 then
    mk_system_metric (sm_id r) (sm_user_id r) (sm_timestamp r)
      (sm_cpu_percent r) (sm_memory_percent r) (sm_memory_used_mb r)
      (sm_disk_usage_percent r) (sm_network_available r)
      (sm_battery_percent r) (sm_power_connected r) 1
  else r.
Definition mark_session (r : eye_session) : eye_session :=
  if es_synced r =? 0 then
    mk_eye_session (es_id r) (es_user_id r) (es_session_start r)
      (es_session_end r) (es_total_blinks r) (es_blinks_per_minute r)
      (es_eye_strain_level r) 1
  else r.
Definition mark_blink (r : blink_event) : blink_event :=
  if be_synced r =? 0 then
    mk_blink_event (be_id r) (be_user_id r) (be_session_id r)
      (be_timestamp r) 1
  else r.

Definition _mark_records_as_synced (d : database) : database :=
  mk_database (map mark_session (eye_sessions d))
              (map mark_metric (system_metrics d))
              (map mark_blink (blink_events d))
              (sync_log d).

Definition _log_sync_result (now : datetime) (records_synced : Z)
    (success : bool) (error_message : option string) (d : database)
  : database :=
  let row :=
    {| sl_id := next_id sl_id (sync_log d);
       sl_sync_time := now;
       sl_records_synced := records_synced;
       sl_success := int_of_truth success;
       sl_error_message := error_message |} in
  mk_database (eye_sessions d) (system_metrics d) (blink_events d)
              (sync_log d ++ [row]).

(** What the manager does not own: the wall clock and the generator
    behind [random.random()], as the sequence of its draws. *)
Record world := mk_world {
  clock : datetime;
  random_draws : nat -> Q;
  draws_taken : nat
}.

(** [_simulate_cloud_sync]: one second of sleep, one draw. *)
Definition _simulate_cloud_sync (w : world) : bool * world :=
  (Qltb (1 # 10) (random_draws w (draws_taken w)),
   {| clock := clock w + 1000000;
      random_draws := random_draws w;
      draws_taken := S (draws_taken w) |}).

(** [sync_data] in three parts: the statements before the [try], the
    [try] block, and the [finally] clause.  Nothing in the block raises
    (each helper handles its own errors), so the [except] clause has no
    counterpart. *)
Definition sync_enter (s : t) : t * list signal :=
  (with_is_syncing true s, [sync_status_changed "Syncing..."]).

Definition sync_attempt (w : world) (s : t) : t * world * list signal :=
  let unsynced_count := _get_unsynced_count (db s) in
  if unsynced_count =? 0 then
    (s, w, [sync_status_changed "Up to date"; sync_completed true])
  else
    let '(success, w) := _simulate_cloud_sync w in
    if success then
      let d := _mark_records_as_synced (db s) in
      let d := _log_sync_result (clock w) unsynced_count true None d in
      ({| db := d; is_syncing := is_syncing s;
          last_sync_time := Some (clock w);
          pending_sync_count := 0 |},
       w,
       [sync_status_changed "Sync complete"; sync_completed true])
    else
      let d := _log_sync_result (clock w) unsynced_count false
                 (Some "Simulated failure"%string) (db s) in
      (with_db d s, w,
       [sync_status_changed "Sync failed"; sync_completed false]).

Definition sync_finally (s : t) : t := with_is_syncing false s.

Definition sync_data (w : world) (s : t) : t * world * list signal :=
  if is_syncing s then (s, w, [])
  else
    let '(s, started) := sync_enter s in
    let '(s, w, out) := sync_attempt w s in
    (sync_finally s, w, started ++ out).

(** The engine as triggers see it.  [Trigger] is a timer fire or a manual
    call reaching the guard of [sync_data]; [Finish] is the attempt in
    progress running its [try] block and [finally] clause. *)
Inductive event := Trigger | Finish.

Definition step (ev : event) (c : t * world * list signal)
  : t * world * list signal :=
  let '(s, w, out) := c in
  match ev with
  | Trigger =>
      if is_syncing s then (s, w, out)
      else let '(s', started) := sync_enter s in (s', w, out ++ started)
  | Finish =>
      if is_syncing s then
        let '(s', w', o) := sync_attempt w s in (sync_finally s', w', out ++ o)
      else (s, w, out)
  end.

Definition run (evs : list event) (c : t * world * list signal)
  : t * world * list signal :=
  fold_left (fun c ev => step ev c) evs c.

(** The three kinds of insert into the tables that carry a sync flag. *)
Inductive insert :=
| metric_sample (now : datetime) (eye_data : EyeTracker.data)
                (system_data : SystemMonitor.metrics)
| blink (now : datetime) (user_id : string) (session_id : option Z)
| session (now : datetime) (user_id : string).

Definition do_insert (i : insert) (s : t) : t :=
  match i with
  | metric_sample now e m => fst (save_session_data now e m s)
  | blink now u sid => save_blink_event now u sid s
  | session now u => fst (start_eye_session now u s)
  end.

Definition do_inserts (l : list insert) (s : t) : t :=
  fold_left (fun s i => do_insert i s) l s.

(** The rows that carry [synced = 0], by table. *)
Definition unsynced_sessions (d : database) : list eye_session :=
  filter (fun r => es_synced r =? 0) (eye_sessions d).
Definition unsynced_metrics (d : database) : list system_metric :=
  filter (fun r => sm_synced r =? 0) (system_metrics d).
Definition unsynced_blinks (d : database) : list blink_event :=
  filter (fun r => be_synced r =? 0) (blink_events d).

(** The number of attempts that complete during [evs]. *)
Definition is_finish (ev : event) : bool :=
  match ev with Finish => true | Trigger => false end.

Definition completions (evs : list event) : nat :=
  List.length (filter is_finish evs).

(** [n] triggers one after the other, each run to completion; the signals
    are kept per trigger. *)
Fixpoint sync_repeatedly (n : nat) (w : world) (s : t)
  : t * world * list (list signal) :=
  match n with
  | O => (s, w, [])
  | S n' =>
      let '(s1, w1, out) := sync_data w s in
      let '(s2, w2, outs) := sync_repeatedly n' w1 s1 in
      (s2, w2, out :: outs)
  end.

(** *** Statistics *)






Record database_stats := mk_database_stats {
  total_sessions : Z;
  total_metrics : Z;
  total_blinks : Z;
  unsynced_count : Z;
  last_sync : option datetime;
  database_size : Z
}.

(** [get_database_stats]; [file_size] is what the file system reports for
    the database file. *)
Definition get_database_stats (file_size : Z) (s : t) : database_stats :=
  let d := db s in
  let sessions_count := count_where (fun _ => true) (eye_sessions d) in
  let metrics_count := count_where (fun _ => true) (system_metrics d) in
  let blinks_count := count_where (fun _ => true) (blink_events d) in
  let unsynced_metrics := count_where (fun r => sm_synced r =? 0) (system_metrics d) in
  {| total_sessions := sessions_count;
     total_metrics := metrics_count;
     total_blinks := blinks_count;
     unsynced_count := unsynced_metrics;
     last_sync := last_sync_time s;
     database_size := file_size |}.

(** [save_pending_data] only writes a log line. *)
Definition save_pending_data (s : t) : t := s.

(** The calls a manager receives during a run: inserts, the closing of a
    session, and sync triggers that run to completion. *)
Inductive op :=
| Insert (i : insert)
| EndSession (now : datetime) (session_id total_blinks : Z) (blinks_per_minute : Q)
| Sync.

Definition exec (o : op) (c : t * world) : t * world :=
  let '(s, w) := c in
  match o with
  | Insert i => (do_insert i s, w)
  | EndSession now sid n bpm => (end_eye_session now sid n bpm s, w)
  | Sync => fst (sync_data w s)
  end.

Definition exec_all (ops : list op) (c : t * world) : t * world :=
  fold_left (fun c o => exec o c) ops c.

(** A row without its sync flag. *)
Definition session_content (r : eye_session) :=
  (es_id r, es_user_id r, es_session_start r, es_session_end r,
   es_total_blinks r, es_blinks_per_minute r, es_eye_strain_level r).
Definition metric_content (r : system_metric) :=
  (sm_id r, sm_user_id r, sm_timestamp r, sm_cpu_percent r, sm_memory_percent r,
   sm_memory_used_mb r, sm_disk_usage_percent r, sm_network_available r,
   sm_battery_percent r, sm_power_connected r).
Definition blink_content (r : blink_event) :=
  (be_id r, be_user_id r, be_session_id r, be_timestamp r).

End DataManager.

(** ** [src/ui/dashboard_widget.py]: the callers of the three core objects *)

Module Dashboard.

(** The widget without its Qt children: the three objects it owns and the
    monitoring flag. *)
Record t := mk {
  eye_tracker : EyeTracker.t;
  system_monitor : SystemMonitor.t;
  data_manager : DataManager.t;
  is_monitoring : bool
}.

(** The builtin [min(a, b)]: the first argument unless the second is
    strictly smaller. *)
Definition py_min (a b : Q) : Q := if Qltb b a then b else a.

(** The text [update_display] puts on the eye-strain label. *)
Definition eye_strain_text (bpm : Q) : string :=
  if Qltb bpm 10 then "High Strain"
  else if Qltb bpm 15 then "Moderate"
  else "Normal".

(** The power impact [update_display] shows. *)
Definition power_impact (cpu_percent : Q) : Q :=
  py_min 100 (cpu_percent * (12 # 10))%Q.

(** [save_data] *)
Definition save_data (now : datetime) (s : t) : t :=
  if is_monitoring s then
    let eye_data := EyeTracker.get_current_data now (eye_tracker s) in
    let system_data :=
      SystemMonitor.get_current_data
        (SystemMonitor.current_metrics (system_monitor s)) in
    {| eye_tracker := eye_tracker s;
       system_monitor := system_monitor s;
       data_manager :=
         fst (DataManager.save_session_data now eye_data system_data
                (data_manager s));
       is_monitoring := is_monitoring s |}
  else s.

(** [start_monitoring]; the two arguments after the clock are those of
    [EyeTracker.start]. *)
Definition start_monitoring (now : datetime) (camera_ok : bool) (interval : Z)
    (s : t) : t :=
  if is_monitoring s then s
  else
    {| eye_tracker := fst (EyeTracker.start now camera_ok interval (eye_tracker s));
       system_monitor := fst (SystemMonitor.start (system_monitor s));
       data_manager := data_manager s;
       is_monitoring := true |}.

(** [stop_monitoring]: both samplers are stopped, the final data is saved,
    then the flag is cleared. *)
Definition stop_monitoring (now : datetime) (s : t) : t :=
  if negb (is_monitoring s) then s
  else
    let s1 :=
      {| eye_tracker := fst (EyeTracker.stop (eye_tracker s));
         system_monitor := fst (SystemMonitor.stop (system_monitor s));
         data_manager := data_manager s;
         is_monitoring := is_monitoring s |} in
    let s2 := save_data now s1 in
    {| eye_tracker := eye_tracker s2;
       system_monitor := system_monitor s2;
       data_manager := data_manager s2;
       is_monitoring := false |}.

Definition toggle_monitoring (now : datetime) (camera_ok : bool) (interval : Z)
    (s : t) : t :=
  if is_monitoring s then stop_monitoring now s
  else start_monitoring now camera_ok interval s.

End Dashboard.

(** ** Vocabulary of the properties *)

(** The test of the comprehension of [_record_blink] for a blink recorded
    at [now]: [t] is later than five minutes before [now]. *)
Definition recent (now t : datetime) : bool :=
  now - timedelta_of_minutes 5 <? t.

(** Two hosts used as examples: a desktop without a battery whose network
    is unreachable and whose disk query fails, and a laptop on battery. *)
Definition desktop_offline : SystemMonitor.host :=
  {| SystemMonitor.psutil_cpu_percent := Returns (25 # 2)%Q;
     SystemMonitor.psutil_virtual_memory :=
       Returns {| SystemMonitor.percent := 40%Q;
                  SystemMonitor.used := 4 * 1024 * 1024 * 1024;
                  SystemMonitor.total := 10 * 1024 * 1024 * 1024 |};
     SystemMonitor.has_disk_usage := true;
     SystemMonitor.psutil_disk_usage := Raises (OSError "No such file or directory");
     SystemMonitor.socket_connect := Raises (OSError "timed out");
     SystemMonitor.has_sensors_battery := true;
     SystemMonitor.psutil_sensors_battery := Returns None;
     SystemMonitor.psutil_pids := Returns [1; 2; 3] |}.

Definition laptop_online : SystemMonitor.host :=
  {| SystemMonitor.psutil_cpu_percent := Returns 5%Q;
     SystemMonitor.psutil_virtual_memory :=
       Returns {| SystemMonitor.percent := 50%Q;
                  SystemMonitor.used := 1024 * 1024;
                  SystemMonitor.total := 2 * 1024 * 1024 |};
     SystemMonitor.has_disk_usage := true;
     SystemMonitor.psutil_disk_usage :=
       Returns {| SystemMonitor.du_total := 200; SystemMonitor.du_used := 50 |};
     SystemMonitor.socket_connect := Returns tt;
     SystemMonitor.has_sensors_battery := true;
     SystemMonitor.psutil_sensors_battery :=
       Returns (Some {| SystemMonitor.b_percent := 80%Q;
                        SystemMonitor.power_plugged := Some false |});
     SystemMonitor.psutil_pids := Returns [1] |}.

(** The value each key of the telemetry dictionary holds after a tick, as a
    function of its own read alone. *)
Section After.

Import SystemMonitor.

Definition cpu_after (h : host) (old : Q) : Q :=
  match psutil_cpu_percent h with Returns c => c | Raises _ => old end.

Definition memory_after (h : host) (old : Q * Q * Q) : Q * Q * Q :=
  match psutil_virtual_memory h with
  | Returns v => (percent v, inject_Z (used v) / inject_Z 1048576,
                  inject_Z (total v) / inject_Z 1048576)%Q
  | Raises _ => old
  end.

Definition disk_after (h : host) (old : Q) : Q :=
  if has_disk_usage h then
    match psutil_disk_usage h with
    | Returns d => if du_total d =? 0 then old
                   else (inject_Z (du_used d) / inject_Z (du_total d) * 100)%Q
    | Raises _ => old
    end
  else old.

Definition network_after (h : host) : bool :=
  match socket_connect h with Returns _ => true | Raises _ => false end.

Definition battery_after (h : host) (old : option Q * option bool)
  : option Q * option bool :=
  if has_sensors_battery h then
    match psutil_sensors_battery h with
    | Returns (Some b) => (Some (b_percent b), power_plugged b)
    | Returns None => (None, Some true)
    | Raises _ => old
    end
  else old.

Definition processes_after (h : host) (old : Z) : Z :=
  match psutil_pids h with
  | Returns pids => Z.of_nat (List.length pids)
  | Raises _ => old
  end.

End After.

(** A run of frames in which the classifiers do not see both eyes. *)
Definition closed_run (times : list datetime) : list (datetime * bool) :=
  map (fun now => (now, false)) times.

(** The elapsed time without its microseconds. *)
Definition whole_seconds (d : timedelta) : timedelta := d - d mod 1000000.

(** The four answers of [get_power_impact_estimate], from the lightest. *)
Definition impact_rank (level : string) : nat :=
  if String.eqb level "High" then 3
  else if String.eqb level "Medium" then 2
  else if String.eqb level "Low" then 1
  else 0.

(** No two rows of a table share their primary key. *)
Definition ids_unique (d : DataManager.database) : Prop :=
  NoDup (map DataManager.es_id (DataManager.eye_sessions d)) /\
  NoDup (map DataManager.sm_id (DataManager.system_metrics d)) /\
  NoDup (map DataManager.be_id (DataManager.blink_events d)) /\
  NoDup (map DataManager.sl_id (DataManager.sync_log d)).

(** * Properties *)

(** ** Arithmetic on the rationals standing for floats *)

Lemma Qltb_lt (a b : Q) : Qltb a b = true <-> (a < b)%Q.
Proof.
  unfold Qltb. rewrite negb_true_iff, <- not_true_iff_false, Qle_bool_iff.
  split; [apply Qnot_le_lt | apply Qlt_not_le].
Qed.

Lemma Qltb_ge (a b : Q) : Qltb a b = false <-> (b <= a)%Q.
Proof.
  unfold Qltb. rewrite negb_false_iff. apply Qle_bool_iff.
Qed.

Lemma py_max_Qmax (a b : Q) : (py_max a b == Qmax a b)%Q.
Proof.
  unfold py_max. destruct (Qltb a b) eqn:E.
  - apply Qltb_lt in E. symmetry. apply Q.max_r. now apply Qlt_le_weak.
  - apply Qltb_ge in E. symmetry. now apply Q.max_l.
Qed.

Lemma py_max_lower (a b : Q) : (a <= py_max a b)%Q.
Proof.
  rewrite py_max_Qmax. apply Q.le_max_l.
Qed.

(** ** The behavioural sampler *)

Section Pruning.

Lemma recent_self now : recent now now = true.
Proof. unfold recent, timedelta_of_minutes. apply Z.ltb_lt. lia. Qed.

Lemma recent_mono now now' t :
  now <= now' -> recent now' t = true -> recent now t = true.
Proof. unfold recent. rewrite !Z.ltb_lt. lia. Qed.

Lemma filter_recent_absorb now now' (l : list datetime) :
  now <= now' ->
  filter (recent now') (filter (recent now) l) = filter (recent now') l.
Proof.
  intros Hle. induction l as [|t l IH]; simpl; [reflexivity|].
  destruct (recent now t) eqn:E; simpl.
  - now rewrite IH.
  - destruct (recent now' t) eqn:E'; [|exact IH].
    apply (recent_mono _ _ _ Hle) in E'. congruence.
Qed.

Lemma last_cons_nonempty {A} (a : A) (l : list A) (d : A) :
  l <> [] -> last (a :: l) d = last l d.
Proof. destruct l; [congruence | reflexivity]. Qed.

Lemma last_In {A} (l : list A) (d : A) : l <> [] -> In (last l d) l.
Proof.
  induction l as [|a l IH]; [congruence|]. intros _.
  destruct l as [|b l]; [now left|].
  right. apply IH. discriminate.
Qed.

Lemma sorted_head_le_last (t : datetime) (ts : list datetime) :
  Sorted Z.le (t :: ts) -> t <= last (t :: ts) 0.
Proof.
  intros Hs. apply Sorted_StronglySorted in Hs; [|exact Z.le_trans].
  inversion Hs as [|? ? _ Hall]; subst.
  destruct ts as [|u ts]; [simpl; lia|].
  rewrite last_cons_nonempty by discriminate.
  rewrite Forall_forall in Hall. apply Hall, last_In. discriminate.
Qed.

End Pruning.

Lemma record_blinks_cons t ts s :
  EyeTracker.record_blinks (t :: ts) s
  = EyeTracker.record_blinks ts (fst (EyeTracker._record_blink t s)).
Proof. reflexivity. Qed.

Lemma record_blinks_total ts : forall s,
  EyeTracker.total_blinks (EyeTracker.record_blinks ts s)
  = EyeTracker.total_blinks s + Z.of_nat (List.length ts).
Proof.
  induction ts as [|t ts IH]; intros s.
  - simpl. lia.
  - rewrite record_blinks_cons, IH. cbn [EyeTracker._record_blink fst
      EyeTracker.total_blinks List.length]. lia.
Qed.

Lemma record_blinks_last ts : forall s,
  ts <> [] ->
  EyeTracker.last_blink_time (EyeTracker.record_blinks ts s) = Some (last ts 0).
Proof.
  induction ts as [|t ts IH]; intros s Hne; [congruence|].
  rewrite record_blinks_cons.
  destruct ts as [|u ts]; [reflexivity|].
  rewrite IH by discriminate. reflexivity.
Qed.

Lemma record_blinks_history ts : forall s,
  Sorted Z.le ts -> ts <> [] ->
  EyeTracker.blink_history (EyeTracker.record_blinks ts s)
  = filter (recent (last ts 0)) (EyeTracker.blink_history s ++ ts).
Proof.
  induction ts as [|t ts IH]; intros s Hs Hne; [congruence|].
  rewrite record_blinks_cons.
  destruct ts as [|u ts]; [reflexivity|].
  pose proof (sorted_head_le_last _ _ Hs) as Hle.
  rewrite last_cons_nonempty in Hle |- * by discriminate.
  rewrite IH; [|now inversion Hs|discriminate].
  cbn [EyeTracker._record_blink fst EyeTracker.blink_history].
  change (fun t0 : Z => t - timedelta_of_minutes 5 <? t0) with (recent t).
  rewrite filter_app, filter_recent_absorb by exact Hle.
  rewrite <- filter_app, <- app_assoc. reflexivity.
Qed.

Lemma start_resets now cam iv s :
  EyeTracker.is_running s = false ->
  let s' := fst (EyeTracker.start now cam iv s) in
  EyeTracker.total_blinks s' = 0 /\ EyeTracker.blink_history s' = []
  /\ EyeTracker.session_start_time s' = Some now.
Proof.
  intros H. unfold EyeTracker.start. rewrite H. now cbn.
Qed.

(** C7: after a session is started, for every sequence of blinks recorded
    at non-decreasing times [ts], [total_blinks] is the length of [ts],
    [last_blink_time] is the latest time, and [blink_history] is exactly the
    sub-list of [ts] whose times are strictly later than five minutes
    before the latest one (the "now" of the last [_record_blink]). *)
Theorem record_blinks_window :
  forall (s0 : EyeTracker.t) (t0 : datetime) (camera_ok : bool) (interval : Z)
         (ts : list datetime),
    EyeTracker.is_running s0 = false ->
    Sorted Z.le ts ->
    let s := EyeTracker.record_blinks ts
               (fst (EyeTracker.start t0 camera_ok interval s0)) in
    EyeTracker.total_blinks s = Z.of_nat (List.length ts) /\
    (ts <> [] -> EyeTracker.last_blink_time s = Some (last ts 0)) /\
    EyeTracker.blink_history s = filter (recent (last ts 0)) ts /\
    (forall t, In t (EyeTracker.blink_history s) <->
               In t ts /\ last ts 0 - timedelta_of_minutes 5 < t).
Proof.
  intros s0 t0 cam iv ts Hidle Hsorted s.
  destruct (start_resets t0 cam iv s0 Hidle) as (Htot & Hhist & _).
  assert (Hwin : EyeTracker.blink_history s = filter (recent (last ts 0)) ts).
  { destruct ts as [|t ts]; [exact Hhist|].
    subst s. rewrite record_blinks_history by (auto; discriminate).
    now rewrite Hhist. }
  split; [|split; [|split]].
  - subst s. rewrite record_blinks_total, Htot. reflexivity.
  - intros Hne. now apply record_blinks_last.
  - exact Hwin.
  - intros t. rewrite Hwin, filter_In. unfold recent.
    now rewrite Z.ltb_lt.
Qed.

Lemma record_blinks_window_witness :
  let ts := [0; 100000000; 400000000; 400000000] in
  let s := EyeTracker.record_blinks ts
             (fst (EyeTracker.start 0 false 3000 EyeTracker.init)) in
  EyeTracker.total_blinks s = 4 /\
  EyeTracker.last_blink_time s = Some 400000000 /\
  EyeTracker.blink_history s = [400000000; 400000000].
Proof.
  intros ts s.
  assert (Hs : Sorted Z.le ts) by (repeat constructor; lia).
  destruct (record_blinks_window EyeTracker.init 0 false 3000 ts eq_refl Hs)
    as (Htot & Hlast & Hwin & _).
  split; [exact Htot|]. split; [apply Hlast; discriminate | exact Hwin].
Defined.

(** C6: with a session started at [start], the rate in the snapshot is
    [total_blinks] divided by the larger of one and the elapsed minutes; the
    divisor is at least one, hence never zero; and for the same elapsed time
    a sampler with more blinks never reports a smaller rate. *)
Theorem blinks_per_minute_floor :
  forall (now start : datetime) (s : EyeTracker.t),
    EyeTracker.session_start_time s = Some start ->
    let elapsed_minutes := ((now - start)%Z # 60000000)%Q in
    let bpm x := EyeTracker.d_blinks_per_minute (EyeTracker.get_current_data now x) in
    (bpm s == inject_Z (EyeTracker.total_blinks s) / Qmax 1 elapsed_minutes)%Q /\
    (EyeTracker.session_minutes now start == Qmax 1 elapsed_minutes)%Q /\
    (1 <= EyeTracker.session_minutes now start)%Q /\
    (forall s' : EyeTracker.t,
        EyeTracker.session_start_time s' = Some start ->
        EyeTracker.total_blinks s <= EyeTracker.total_blinks s' ->
        (bpm s <= bpm s')%Q).
Proof.
  intros now start s Hstart elapsed_minutes bpm.
  assert (Hmin : (EyeTracker.session_minutes now start == Qmax 1 elapsed_minutes)%Q).
  { unfold EyeTracker.session_minutes. rewrite py_max_Qmax.
    assert (E : (total_seconds (now - start)%Z / 60 == elapsed_minutes)%Q).
    { unfold total_seconds, elapsed_minutes, Qdiv, Qinv, Qmult, Qeq. simpl. lia. }
    now rewrite E. }
  assert (Hone : (1 <= EyeTracker.session_minutes now start)%Q)
    by apply py_max_lower.
  assert (Hbpm : forall x, EyeTracker.session_start_time x = Some start ->
             bpm x = (inject_Z (EyeTracker.total_blinks x)
                      / EyeTracker.session_minutes now start)%Q).
  { intros x Hx. unfold bpm, EyeTracker.get_current_data. rewrite Hx. reflexivity. }
  repeat split.
  - rewrite (Hbpm s Hstart), Hmin. reflexivity.
  - exact Hmin.
  - exact Hone.
  - intros s' Hstart' Hle. rewrite (Hbpm s Hstart), (Hbpm s' Hstart').
    unfold Qdiv. apply Qmult_le_compat_r.
    + rewrite <- Zle_Qle. exact Hle.
    + apply Qinv_le_0_compat. eapply Qle_trans; [|exact Hone]. discriminate.
Qed.

Lemma blinks_per_minute_floor_witness :
  let s := EyeTracker.record_blinks [5000000; 9000000; 20000000]
             (fst (EyeTracker.start 0 true 0 EyeTracker.init)) in
  let bpm := EyeTracker.d_blinks_per_minute
               (EyeTracker.get_current_data 20000000 s) in
  let divisor := EyeTracker.session_minutes 20000000 0 in
  (bpm == 3)%Q /\ (1 <= divisor)%Q.
Proof.
  intros s bpm divisor.
  destruct (blinks_per_minute_floor 20000000 0 s eq_refl) as (Hbpm & _ & Hone & _).
  split; [|exact Hone].
  eapply Qeq_trans; [exact Hbpm|]. vm_compute. reflexivity.
Defined.

(** C10: while [start] has never run (no session start time is set),
    [get_current_data] returns a complete snapshot whose rate is 0 and whose
    duration is the string "00:00:00"; the other fields are read off the
    sampler. *)
Theorem get_current_data_unstarted :
  forall (now : datetime) (s : EyeTracker.t),
    EyeTracker.session_start_time s = None ->
    EyeTracker.get_current_data now s =
      {| EyeTracker.d_total_blinks := EyeTracker.total_blinks s;
         EyeTracker.d_blinks_per_minute := 0%Q;
         EyeTracker.d_session_duration := "00:00:00"%string;
         EyeTracker.d_last_blink := EyeTracker.last_blink_time s;
         EyeTracker.d_is_tracking := EyeTracker.is_running s;
         EyeTracker.d_camera_available := EyeTracker.camera_available s;
         EyeTracker.d_simulation_mode := EyeTracker.simulation_mode s |}.
Proof.
  intros now s Hnone. unfold EyeTracker.get_current_data. rewrite Hnone.
  reflexivity.
Qed.

Lemma get_current_data_unstarted_witness :
  EyeTracker.get_current_data 1700000000000000 EyeTracker.init =
    {| EyeTracker.d_total_blinks := 0;
       EyeTracker.d_blinks_per_minute := 0%Q;
       EyeTracker.d_session_duration := "00:00:00"%string;
       EyeTracker.d_last_blink := None;
       EyeTracker.d_is_tracking := false;
       EyeTracker.d_camera_available := false;
       EyeTracker.d_simulation_mode := false |}.
Proof.
  exact (get_current_data_unstarted 1700000000000000 EyeTracker.init eq_refl).
Defined.

(** ** The telemetry sampler *)

Section Tick.

Import SystemMonitor.

(** No update lets an exception escape, whatever the host answers. *)
Lemma updates_return (h : host) (m : metrics) :
  fst (_update_cpu_metrics h m) = Returns tt /\
  fst (_update_memory_metrics h m) = Returns tt /\
  fst (_update_disk_metrics h m) = Returns tt /\
  fst (_update_network_status h m) = Returns tt /\
  fst (_update_battery_metrics h m) = Returns tt /\
  fst (_update_process_count h m) = Returns tt.
Proof.
  destruct h as [cpu mem hd disk net hb bat pids].
  unfold _update_cpu_metrics, _update_memory_metrics, _update_disk_metrics,
    _update_network_status, _update_battery_metrics, _update_process_count,
    try_except, bind, call, assign, log_error, ret, true_div; cbn.
  repeat split.
  - destruct cpu; reflexivity.
  - destruct mem; reflexivity.
  - destruct hd; [|reflexivity]. destruct disk as [d|]; [|reflexivity].
    destruct (du_total d =? 0); reflexivity.
  - destruct net as [|[]]; reflexivity.
  - destruct hb; [|reflexivity]. destruct bat as [[b|]|]; reflexivity.
  - destruct pids; reflexivity.
Qed.

End Tick.

Section TickSpec.

Import SystemMonitor.

Lemma tick_run (h : host) (m : metrics) :
  tick h m =
    let m1 := snd (_update_cpu_metrics h m) in
    let m2 := snd (_update_memory_metrics h m1) in
    let m3 := snd (_update_disk_metrics h m2) in
    let m4 := snd (_update_network_status h m3) in
    let m5 := snd (_update_battery_metrics h m4) in
    let m6 := snd (_update_process_count h m5) in
    (Returns (metrics_updated m6), m6).
Proof.
  cbv zeta. unfold tick, bind.
  repeat match goal with
         | |- context [match ?f h ?x with _ => _ end] =>
             let H := fresh in
             pose proof (updates_return h x) as H;
             destruct (f h x) as [[[]|] ?]; cbn [fst snd] in *;
             [clear H | exfalso; decompose [and] H; discriminate]
         end.
  reflexivity.
Qed.

End TickSpec.

Section TickClaims.

Import SystemMonitor.

(** Each update, as the assignment of the value its own read determines. *)
Lemma update_cpu_effect (h : host) (m : metrics) :
  snd (_update_cpu_metrics h m) = set_cpu_percent (cpu_after h (cpu_percent m)) m.
Proof.
  unfold _update_cpu_metrics, cpu_after, try_except, bind, call, assign.
  destruct (psutil_cpu_percent h); [reflexivity | now destruct m].
Qed.

Lemma update_memory_effect (h : host) (m : metrics) :
  snd (_update_memory_metrics h m) =
    let after := memory_after h (memory_percent m, memory_used_mb m,
                                 memory_total_mb m) in
    set_memory_total_mb (snd after)
      (set_memory_used_mb (snd (fst after))
         (set_memory_percent (fst (fst after)) m)).
Proof.
  unfold _update_memory_metrics, memory_after, try_except, bind, call, assign.
  destruct (psutil_virtual_memory h); [reflexivity | now destruct m].
Qed.

Lemma update_disk_effect (h : host) (m : metrics) :
  snd (_update_disk_metrics h m)
  = set_disk_usage_percent (disk_after h (disk_usage_percent m)) m.
Proof.
  unfold _update_disk_metrics, disk_after, try_except, bind, call, assign,
    ret, true_div.
  destruct (has_disk_usage h); [|now destruct m].
  destruct (psutil_disk_usage h) as [d|]; [|now destruct m].
  destruct (du_total d =? 0); [now destruct m | reflexivity].
Qed.

Lemma update_network_effect (h : host) (m : metrics) :
  snd (_update_network_status h m) = set_network_available (network_after h) m.
Proof.
  unfold _update_network_status, network_after, try_except, bind, call,
    assign, log_error, ret.
  destruct (socket_connect h) as [|[]]; reflexivity.
Qed.

Lemma update_battery_effect (h : host) (m : metrics) :
  snd (_update_battery_metrics h m) =
    let after := battery_after h (battery_percent m, power_connected m) in
    set_power_connected (snd after) (set_battery_percent (fst after) m).
Proof.
  unfold _update_battery_metrics, battery_after, try_except, bind, call,
    assign, ret.
  destruct (has_sensors_battery h); [|now destruct m].
  destruct (psutil_sensors_battery h) as [[b|]|]; try reflexivity.
  now destruct m.
Qed.

Lemma update_process_effect (h : host) (m : metrics) :
  snd (_update_process_count h m)
  = set_process_count (processes_after h (process_count m)) m.
Proof.
  unfold _update_process_count, processes_after, try_except, bind, call, assign.
  destruct (psutil_pids h); [reflexivity | now destruct m].
Qed.

Lemma monitoring_loop_never_ends_early (ticks : list host) : forall m,
  List.length (snd (_monitoring_loop ticks m)) = List.length ticks.
Proof.
  induction ticks as [|h ticks IH]; intros m; [reflexivity|].
  cbn [_monitoring_loop]. rewrite tick_run. cbv beta iota zeta.
  match goal with
  | |- context [_monitoring_loop ticks ?x] =>
      specialize (IH x); destruct (_monitoring_loop ticks x) as [m' out]
  end.
  cbn in *. now rewrite IH.
Qed.

(** C8: on every tick, whatever each read of the host answers, the tick
    returns normally with the snapshot it emits; a reachability probe that
    fails in any way leaves [network_available] false in that snapshot; and
    every key ends up with the value its own read determines, so a failed
    read of one metric changes nothing about the others.  The loop therefore
    emits one snapshot per tick. *)
Theorem tick_isolates_failures :
  forall (h : host) (m : metrics),
  exists m' : metrics,
    tick h m = (Returns (metrics_updated m'), m') /\
    fst (_update_network_status h m) = Returns tt /\
    network_available m' = network_after h /\
    (forall e, socket_connect h = Raises e ->
               get_network_status (get_current_data m') = false) /\
    cpu_percent m' = cpu_after h (cpu_percent m) /\
    (memory_percent m', memory_used_mb m', memory_total_mb m')
      = memory_after h (memory_percent m, memory_used_mb m, memory_total_mb m) /\
    disk_usage_percent m' = disk_after h (disk_usage_percent m) /\
    (battery_percent m', power_connected m')
      = battery_after h (battery_percent m, power_connected m) /\
    process_count m' = processes_after h (process_count m) /\
    boot_time m' = boot_time m /\
    (forall (ticks : list host) (m0 : metrics),
        List.length (snd (_monitoring_loop ticks m0)) = List.length ticks).
Proof.
  intros h m. eexists. split; [apply tick_run|]. cbv zeta.
  split; [apply updates_return|].
  rewrite update_cpu_effect, update_memory_effect, update_disk_effect,
    update_network_effect, update_battery_effect, update_process_effect.
  unfold get_network_status, get_current_data.
  destruct m as [c mp mu mt dk nw bp pc n bt].
  cbn [set_cpu_percent set_memory_percent set_memory_used_mb
       set_memory_total_mb set_disk_usage_percent set_network_available
       set_battery_percent set_power_connected set_process_count
       cpu_percent memory_percent memory_used_mb memory_total_mb
       disk_usage_percent network_available battery_percent power_connected
       process_count boot_time].
  split; [reflexivity|].
  split; [intros e He; unfold network_after; now rewrite He|].
  split; [reflexivity|].
  split; [now destruct (memory_after h (mp, mu, mt)) as [[? ?] ?]|].
  split; [reflexivity|].
  split; [now destruct (battery_after h (bp, pc))|].
  split; [reflexivity|].
  split; [reflexivity|].
  intros ticks m0. apply monitoring_loop_never_ends_early.
Qed.

Lemma tick_isolates_failures_witness :
  exists m' : metrics,
    tick desktop_offline (init (Returns 0)) = (Returns (metrics_updated m'), m') /\
    network_available m' = false /\
    cpu_percent m' = (25 # 2)%Q /\
    memory_percent m' = 40%Q /\
    disk_usage_percent m' = 0%Q /\
    process_count m' = 3.
Proof.
  destruct (tick_isolates_failures desktop_offline (init (Returns 0)))
    as (m' & Hrun & _ & _ & Hnet & Hcpu & Hmem & Hdisk & _ & Hproc & _).
  exists m'. split; [exact Hrun|].
  split; [exact (Hnet (OSError "timed out") eq_refl)|].
  split; [exact Hcpu|].
  split; [now inversion Hmem|].
  split; [exact Hdisk | exact Hproc].
Defined.

(** C9 as stated fails: on a host without a battery the tick leaves
    [power_connected] at [True], not absent. *)
Lemma no_battery_power_connected_true :
  no_battery desktop_offline /\
  get_battery_info (snd (tick desktop_offline (init (Returns 0))))
    = (None, Some true) /\
  ~ (forall (h : host) (m : metrics),
        no_battery h ->
        get_battery_info (snd (_update_battery_metrics h m)) = (None, None)).
Proof.
  split; [split; reflexivity|]. split; [reflexivity|].
  intros H.
  specialize (H desktop_offline (init (Returns 0)) (conj eq_refl eq_refl)).
  discriminate H.
Qed.

Lemma tick_battery (h : host) (m : metrics) :
  get_battery_info (snd (tick h m)) = battery_after h (get_battery_info m).
Proof.
  rewrite tick_run. cbv zeta. cbn [snd].
  rewrite update_cpu_effect, update_memory_effect, update_disk_effect,
    update_network_effect, update_battery_effect, update_process_effect.
  unfold get_battery_info. destruct m as [c mp mu mt dk nw bp pc n bt].
  cbn. now destruct (battery_after h (bp, pc)).
Qed.

Lemma battery_metrics_without_interface (h : host) (m : metrics) :
  has_sensors_battery h = false ->
  get_battery_info (snd (tick h m)) = get_battery_info m.
Proof.
  intros Hhas. rewrite tick_battery. unfold battery_after. now rewrite Hhas.
Qed.

(** C9, amended: on a host without a battery the sampler reports the
    battery percentage as absent (not as zero) and the power-connected state
    as true, both right after [_update_battery_metrics] and in the snapshot
    of the tick. *)
Theorem battery_metrics_without_battery :
  forall (h : host) (m : metrics),
    no_battery h ->
    get_battery_info (snd (_update_battery_metrics h m)) = (None, Some true) /\
    get_battery_info (get_current_data (snd (tick h m))) = (None, Some true).
Proof.
  intros h m [Hhas Hread]. unfold get_current_data. rewrite tick_battery.
  unfold battery_after, _update_battery_metrics, try_except, bind, call, assign.
  rewrite Hhas, Hread. split; reflexivity.
Qed.

Lemma battery_metrics_without_battery_witness :
  no_battery desktop_offline /\
  get_battery_info
    (get_current_data
       (snd (tick desktop_offline (snd (tick laptop_online (init (Returns 0)))))))
    = (None, Some true).
Proof.
  assert (H : no_battery desktop_offline) by (split; reflexivity).
  split; [exact H|].
  apply (battery_metrics_without_battery desktop_offline
           (snd (tick laptop_online (init (Returns 0)))) H).
Defined.

End TickClaims.

(** ** The durable store *)

Section Store.

Import DataManager.

Lemma count_where_app {A} (p : A -> bool) (l l' : list A) :
  count_where p (l ++ l') = count_where p l + count_where p l'.
Proof.
  unfold count_where. rewrite filter_app, length_app. lia.
Qed.

Lemma count_where_snoc {A} (p : A -> bool) (l : list A) (x : A) :
  count_where p (l ++ [x]) = count_where p l + (if p x then 1 else 0).
Proof.
  rewrite count_where_app. unfold count_where at 2. cbn.
  now destruct (p x).
Qed.

Lemma do_insert_count (i : insert) (s : t) :
  _get_unsynced_count (db (do_insert i s)) = _get_unsynced_count (db s) + 1.
Proof.
  destruct i; cbn [do_insert save_session_data save_blink_event
    start_eye_session fst db with_db];
    unfold _get_unsynced_count;
    cbn [eye_sessions system_metrics blink_events];
    rewrite count_where_snoc; cbn; lia.
Qed.

Lemma do_inserts_count (l : list insert) : forall s,
  _get_unsynced_count (db (do_inserts l s))
  = _get_unsynced_count (db s) + Z.of_nat (List.length l).
Proof.
  induction l as [|i l IH]; intros s.
  - cbn. lia.
  - change (do_inserts (i :: l) s) with (do_inserts l (do_insert i s)).
    rewrite IH, do_insert_count. cbn [List.length]. lia.
Qed.

Lemma filter_map_none {A} (p : A -> bool) (f : A -> A) (l : list A) :
  (forall x, p (f x) = false) -> filter p (map f l) = [].
Proof.
  intros H. induction l as [|x l IH]; cbn; [reflexivity|].
  now rewrite H.
Qed.

Lemma mark_session_synced r : (es_synced (mark_session r) =? 0) = false.
Proof.
  unfold mark_session. destruct (es_synced r =? 0) eqn:E; [reflexivity|exact E].
Qed.

Lemma mark_metric_synced r : (sm_synced (mark_metric r) =? 0) = false.
Proof.
  unfold mark_metric. destruct (sm_synced r =? 0) eqn:E; [reflexivity|exact E].
Qed.

Lemma mark_blink_synced r : (be_synced (mark_blink r) =? 0) = false.
Proof.
  unfold mark_blink. destruct (be_synced r =? 0) eqn:E; [reflexivity|exact E].
Qed.

Lemma mark_records_count (d : database) :
  _get_unsynced_count (_mark_records_as_synced d) = 0.
Proof.
  unfold _get_unsynced_count, _mark_records_as_synced, count_where.
  cbn [eye_sessions system_metrics blink_events].
  rewrite (filter_map_none _ mark_session) by apply mark_session_synced.
  rewrite (filter_map_none _ mark_metric) by apply mark_metric_synced.
  rewrite (filter_map_none _ mark_blink) by apply mark_blink_synced.
  reflexivity.
Qed.

Lemma map_id_on {A} (f : A -> A) (l : list A) :
  (forall x, In x l -> f x = x) -> map f l = l.
Proof.
  intros H. induction l as [|x l IH]; cbn; [reflexivity|].
  rewrite H by now left. rewrite IH; [reflexivity|].
  intros y Hy. apply H. now right.
Qed.

Lemma mark_records_idempotent (d : database) :
  _mark_records_as_synced (_mark_records_as_synced d) = _mark_records_as_synced d.
Proof.
  unfold _mark_records_as_synced.
  cbn [eye_sessions system_metrics blink_events sync_log].
  f_equal; apply map_id_on; intros x Hx; apply in_map_iff in Hx;
    destruct Hx as (r & <- & _).
  - unfold mark_session at 1. now rewrite mark_session_synced.
  - unfold mark_metric at 1. now rewrite mark_metric_synced.
  - unfold mark_blink at 1. now rewrite mark_blink_synced.
Qed.

(** C1: [_get_unsynced_count] is the number of rows with [synced = 0]
    summed over the sessions, metric samples and blink events; [N] inserts
    with no sync in between raise it by [N], so it is [N] on a fresh
    database; marking the records as synced brings it to 0; one more insert
    then makes it 1; and marking leaves every row that was already synced
    exactly as it was. *)
Theorem count_unsynced_inserts_and_marks :
  forall (s : t) (ops : list insert) (op : insert),
    let n := Z.of_nat (List.length ops) in
    let after_inserts := do_inserts ops s in
    let marked := with_db (_mark_records_as_synced (db after_inserts)) after_inserts in
    _get_unsynced_count (db s)
      = Z.of_nat (List.length (unsynced_sessions (db s))
                  + List.length (unsynced_metrics (db s))
                  + List.length (unsynced_blinks (db s))) /\
    _get_unsynced_count (db after_inserts) = _get_unsynced_count (db s) + n /\
    _get_unsynced_count (db (do_inserts ops (init empty))) = n /\
    _get_unsynced_count (db marked) = 0 /\
    _get_unsynced_count (db (do_insert op marked)) = 1 /\
    _mark_records_as_synced (db marked) = db marked /\
    (forall r, es_synced r <> 0 -> mark_session r = r) /\
    (forall r, sm_synced r <> 0 -> mark_metric r = r) /\
    (forall r, be_synced r <> 0 -> mark_blink r = r).
Proof.
  intros s ops op n after_inserts marked.
  assert (Hmarked : _get_unsynced_count (db marked) = 0)
    by apply mark_records_count.
  split; [unfold _get_unsynced_count, count_where, unsynced_sessions,
            unsynced_metrics, unsynced_blinks; lia|].
  split; [apply do_inserts_count|].
  split; [rewrite do_inserts_count; reflexivity|].
  split; [exact Hmarked|].
  split; [rewrite do_insert_count, Hmarked; reflexivity|].
  split; [apply mark_records_idempotent|].
  repeat split; intros r Hr; apply Z.eqb_neq in Hr.
  - unfold mark_session. now rewrite Hr.
  - unfold mark_metric. now rewrite Hr.
  - unfold mark_blink. now rewrite Hr.
Qed.

Lemma count_unsynced_inserts_and_marks_witness :
  let ops := [session 10 "u1"; blink 20 "u1" (Some 1); blink 30 "u1" None] in
  let d := db (do_inserts ops (init empty)) in
  _get_unsynced_count d = 3 /\
  _get_unsynced_count (_mark_records_as_synced d) = 0 /\
  _get_unsynced_count
    (db (do_insert (blink 40 "u1" (Some 1))
           (init (_mark_records_as_synced d)))) = 1.
Proof.
  intros ops d.
  destruct (count_unsynced_inserts_and_marks (init empty) ops (blink 40 "u1" (Some 1)))
    as (_ & _ & Hn & Hzero & Hone & _).
  split; [exact Hn|]. split; [exact Hzero | exact Hone].
Defined.

(** C2: the strain level stored when a session is closed depends on the
    rate only: below 10 it is 'high', from 10 up to but excluding 15 it is
    'moderate', from 15 on it is 'normal'; so 10 gives 'moderate' and 15
    gives 'normal'. *)
Theorem strain_level_thresholds :
  forall (bpm : Q),
    ((bpm < 10)%Q -> strain_level bpm = "high"%string) /\
    ((10 <= bpm)%Q -> (bpm < 15)%Q -> strain_level bpm = "moderate"%string) /\
    ((15 <= bpm)%Q -> strain_level bpm = "normal"%string) /\
    (forall bpm', (bpm == bpm')%Q -> strain_level bpm = strain_level bpm') /\
    strain_level 10 = "moderate"%string /\
    strain_level 15 = "normal"%string /\
    (forall (now : datetime) (session_id total_blinks : Z) (s : t) (r : eye_session),
        In r (eye_sessions (db (end_eye_session now session_id total_blinks bpm s))) ->
        es_id r = session_id ->
        es_eye_strain_level r = strain_level bpm).
Proof.
  intros bpm.
  split; [|split; [|split; [|split; [|split; [|split]]]]]; try reflexivity.
  - intros H. unfold strain_level. apply Qltb_lt in H. now rewrite H.
  - intros H10 H15. unfold strain_level.
    apply Qltb_ge in H10. apply Qltb_lt in H15. now rewrite H10, H15.
  - intros H15. unfold strain_level.
    assert (H10 : (10 <= bpm)%Q) by (eapply Qle_trans; [|exact H15]; discriminate).
    apply Qltb_ge in H10, H15. now rewrite H10, H15.
  - intros bpm' E. unfold strain_level, Qltb.
    assert (E10 : Qle_bool 10 bpm = Qle_bool 10 bpm').
    { apply eq_true_iff_eq. rewrite !Qle_bool_iff. now rewrite E. }
    assert (E15 : Qle_bool 15 bpm = Qle_bool 15 bpm').
    { apply eq_true_iff_eq. rewrite !Qle_bool_iff. now rewrite E. }
    now rewrite E10, E15.
  - intros now session_id total_blinks s r Hin Hid.
    cbn [end_eye_session db with_db eye_sessions] in Hin.
    apply in_map_iff in Hin. destruct Hin as (r0 & Hr & _).
    destruct (es_id r0 =? session_id) eqn:E.
    + now subst r.
    + subst r. apply Z.eqb_neq in E. contradiction.
Qed.

Lemma strain_level_thresholds_witness :
  strain_level 9 = "high"%string /\
  strain_level 12 = "moderate"%string /\
  strain_level 20 = "normal"%string /\
  strain_level (29 # 2) = "moderate"%string.
Proof.
  destruct (strain_level_thresholds 9) as (Hhigh & _).
  destruct (strain_level_thresholds 12) as (_ & Hmoderate & _).
  destruct (strain_level_thresholds 20) as (_ & _ & Hnormal & _).
  destruct (strain_level_thresholds (29 # 2)) as (_ & Hbelow & _).
  split; [apply Hhigh; reflexivity|].
  split; [apply Hmoderate; [discriminate | reflexivity]|].
  split; [apply Hnormal; discriminate|].
  apply Hbelow; [discriminate | reflexivity].
Defined.

End Store.


(** ** The sync engine *)

Section Sync.

Import DataManager.

Lemma sync_data_guard (w : world) (s : t) :
  is_syncing s = true -> sync_data w s = (s, w, []).
Proof.
  intros H. unfold sync_data. now rewrite H.
Qed.

Lemma leave_after_enter (s : t) :
  is_syncing s = false -> sync_finally (fst (sync_enter s)) = s.
Proof.
  destruct s as [d b l p]. cbn. now intros ->.
Qed.

Lemma sync_attempt_flag (w : world) (s : t) :
  is_syncing (fst (fst (sync_attempt w s))) = is_syncing s.
Proof.
  unfold sync_attempt.
  destruct (_get_unsynced_count (db s) =? 0); [reflexivity|].
  destruct (_simulate_cloud_sync w) as [[] w']; reflexivity.
Qed.

Lemma sync_attempt_log (w : world) (s : t) :
  (List.length (sync_log (db (fst (fst (sync_attempt w s)))))
   <= S (List.length (sync_log (db s))))%nat.
Proof.
  unfold sync_attempt.
  destruct (_get_unsynced_count (db s) =? 0); [cbn; lia|].
  destruct (_simulate_cloud_sync w) as [[] w']; cbn; rewrite length_app; cbn; lia.
Qed.

Lemma sync_data_unfold (w : world) (s : t) :
  is_syncing s = false ->
  sync_data w s =
    (sync_finally (fst (fst (sync_attempt w (fst (sync_enter s))))),
     snd (fst (sync_attempt w (fst (sync_enter s)))),
     snd (sync_enter s) ++ snd (sync_attempt w (fst (sync_enter s)))).
Proof.
  intros H. unfold sync_data. rewrite H.
  cbn [sync_enter fst snd].
  now destruct (sync_attempt w (with_is_syncing true s)) as [[s' w'] out].
Qed.

Lemma run_app (evs evs' : list event) (c : t * world * list signal) :
  run (evs ++ evs') c = run evs' (run evs c).
Proof. apply fold_left_app. Qed.

Lemma run_triggers_syncing (n : nat) (s : t) (w : world) (out : list signal) :
  is_syncing s = true -> run (repeat Trigger n) (s, w, out) = (s, w, out).
Proof.
  intros H. induction n as [|n IH]; [reflexivity|].
  cbn [repeat run fold_left step]. rewrite H. exact IH.
Qed.

Lemma step_log (ev : event) (c : t * world * list signal) :
  (List.length (sync_log (db (fst (fst (step ev c)))))
   <= List.length (sync_log (db (fst (fst c)))) + completions [ev])%nat.
Proof.
  destruct c as [[s w] out]. destruct ev; cbn [step completions filter is_finish].
  - destruct (is_syncing s); cbn; lia.
  - destruct (is_syncing s); [|cbn; lia].
    pose proof (sync_attempt_log w s) as H.
    destruct (sync_attempt w s) as [[s' w'] o]. cbn in *. lia.
Qed.

Lemma run_log (evs : list event) : forall c : t * world * list signal,
  (List.length (sync_log (db (fst (fst (run evs c)))))
   <= List.length (sync_log (db (fst (fst c)))) + completions evs)%nat.
Proof.
  induction evs as [|ev evs IH]; intros c; [cbn; lia|].
  change (run (ev :: evs) c) with (run evs (step ev c)).
  specialize (IH (step ev c)). pose proof (step_log ev c) as H.
  unfold completions in *.
  destruct ev; cbn [filter is_finish List.length] in *; lia.
Qed.

(** C3: while an attempt is in progress the flag is set, from the entry to
    the [finally] clause, and any trigger that finds it set returns at once:
    the manager (store and sync log included), the world and the signals are
    as they were.  Triggers that overlap an attempt therefore leave its
    outcome unchanged, an attempt appends at most one sync-log row, and over
    any interleaving of triggers and completions the rows appended never
    outnumber the completed attempts. *)
Theorem sync_trigger_dropped_while_syncing :
  forall (w : world) (s : t) (n : nat) (evs : list event),
    is_syncing s = false ->
    let in_progress := fst (sync_enter s) in
    is_syncing in_progress = true /\
    is_syncing (fst (fst (sync_attempt w in_progress))) = true /\
    (forall w', sync_data w' in_progress = (in_progress, w', [])) /\
    (forall w' s', is_syncing s' = true -> sync_data w' s' = (s', w', [])) /\
    run (Trigger :: repeat Trigger n ++ [Finish]) (s, w, []) = sync_data w s /\
    (List.length (sync_log (db (fst (fst (sync_data w s)))))
     <= S (List.length (sync_log (db s))))%nat /\
    (List.length (sync_log (db (fst (fst (run evs (s, w, []))))))
     <= List.length (sync_log (db s)) + completions evs)%nat.
Proof.
  intros w s n evs Hidle in_progress.
  assert (Hflag : is_syncing in_progress = true) by reflexivity.
  split; [exact Hflag|].
  split; [now rewrite sync_attempt_flag|].
  split; [intros w'; now apply sync_data_guard|].
  split; [intros w' s'; apply sync_data_guard|].
  split; [|split].
  - change (Trigger :: repeat Trigger n ++ [Finish])
      with ([Trigger] ++ (repeat Trigger n ++ [Finish])).
    rewrite !run_app. cbn [run fold_left step]. rewrite Hidle.
    cbn [sync_enter app]. fold in_progress.
    rewrite (run_triggers_syncing n in_progress) by exact Hflag.
    cbn [step]. rewrite Hflag, sync_data_unfold by exact Hidle.
    fold in_progress.
    now destruct (sync_attempt w in_progress) as [[s' w'] out].
  - rewrite sync_data_unfold by exact Hidle. cbn [fst snd].
    apply (sync_attempt_log w in_progress).
  - apply (run_log evs (s, w, [])).
Qed.

Lemma sync_trigger_dropped_while_syncing_witness :
  let s := do_inserts [session 10 "u1"; blink 20 "u1" (Some 1)] (init empty) in
  let w := mk_world 1000 (fun _ => 1 # 2) 0 in
  let in_progress := fst (sync_enter s) in
  sync_data w in_progress = (in_progress, w, []) /\
  run [Trigger; Trigger; Trigger; Finish] (s, w, []) = sync_data w s /\
  (List.length (sync_log (db (fst (fst (sync_data w s))))) <= 1)%nat.
Proof.
  intros s w in_progress.
  destruct (sync_trigger_dropped_while_syncing w s 2 [] eq_refl)
    as (_ & _ & Hdrop & _ & Hrun & Hlog & _).
  split; [apply Hdrop|]. split; [exact Hrun | exact Hlog].
Defined.

(** C4: when the delivery of an attempt fails, the three record tables are
    exactly as before (so every unsynced record is still unsynced and the
    count is the same); the sync log grows by exactly one row, carrying the
    unsynced count, [success = 0] and a reason; the signals are "Syncing...",
    "Sync failed" and [sync_completed(False)]; and the attempt has asked for
    one delivery only, so there is no retry inside it. *)
Theorem sync_failure_keeps_records :
  forall (w : world) (s : t),
    is_syncing s = false ->
    _get_unsynced_count (db s) <> 0 ->
    fst (_simulate_cloud_sync w) = false ->
    let s' := fst (fst (sync_data w s)) in
    let w' := snd (fst (sync_data w s)) in
    let out := snd (sync_data w s) in
    eye_sessions (db s') = eye_sessions (db s) /\
    system_metrics (db s') = system_metrics (db s) /\
    blink_events (db s') = blink_events (db s) /\
    _get_unsynced_count (db s') = _get_unsynced_count (db s) /\
    sync_log (db s') =
      sync_log (db s) ++
        [{| sl_id := next_id sl_id (sync_log (db s));
            sl_sync_time := clock w';
            sl_records_synced := _get_unsynced_count (db s);
            sl_success := 0;
            sl_error_message := Some "Simulated failure"%string |}] /\
    out = [sync_status_changed "Syncing..."; sync_status_changed "Sync failed";
           sync_completed false] /\
    draws_taken w' = S (draws_taken w) /\
    is_syncing s' = false /\
    last_sync_time s' = last_sync_time s /\
    pending_sync_count s' = pending_sync_count s.
Proof.
  intros w s Hidle Hcount Hfail s' w' out.
  subst s' w' out. rewrite sync_data_unfold by exact Hidle.
  apply Z.eqb_neq in Hcount.
  unfold sync_attempt. cbn [sync_enter fst snd db with_is_syncing].
  rewrite Hcount.
  destruct (_simulate_cloud_sync w) as [ok w1] eqn:Hsim.
  cbn [fst] in Hfail. subst ok.
  assert (Hdraw : draws_taken w1 = S (draws_taken w)).
  { unfold _simulate_cloud_sync in Hsim. now inversion Hsim. }
  cbn. repeat split; try reflexivity. exact Hdraw.
Qed.

Lemma sync_failure_keeps_records_witness :
  let s := do_inserts [session 10 "u1"; blink 20 "u1" (Some 1)] (init empty) in
  let w := mk_world 1000 (fun n => match n with O => 1 # 20 | _ => 1 # 2 end) 0 in
  let s' := fst (fst (sync_data w s)) in
  _get_unsynced_count (db s') = 2 /\
  List.length (sync_log (db s')) = 1%nat /\
  draws_taken (snd (fst (sync_data w s))) = 1%nat.
Proof.
  intros s w s'.
  assert (Hcount : _get_unsynced_count (db s) <> 0) by discriminate.
  destruct (sync_failure_keeps_records w s eq_refl Hcount eq_refl)
    as (_ & _ & _ & Hsame & Hlog & _ & Hdraw & _).
  split; [exact Hsame|].
  split; [|exact Hdraw].
  unfold s'. rewrite Hlog. reflexivity.
Defined.

(** C5: a trigger that finds nothing unsynced leaves the manager, and with
    it the store and the sync log, exactly as it was; it takes no delivery
    draw; it emits "Syncing...", "Up to date" and [sync_completed(True)];
    and any number of such triggers in a row each do the same. *)
Theorem sync_up_to_date_noop :
  forall (w : world) (s : t) (n : nat),
    is_syncing s = false ->
    _get_unsynced_count (db s) = 0 ->
    let up_to_date := [sync_status_changed "Syncing...";
                       sync_status_changed "Up to date";
                       sync_completed true] in
    sync_data w s = (s, w, up_to_date) /\
    sync_repeatedly n w s = (s, w, repeat up_to_date n).
Proof.
  intros w s n Hidle Hzero up_to_date.
  assert (Hone : sync_data w s = (s, w, up_to_date)).
  { rewrite sync_data_unfold by exact Hidle.
    unfold sync_attempt. cbn [sync_enter fst snd db with_is_syncing].
    rewrite Hzero. cbn [Z.eqb fst snd app].
    fold (with_is_syncing true s).
    change (with_is_syncing true s) with (fst (sync_enter s)).
    now rewrite leave_after_enter. }
  split; [exact Hone|].
  induction n as [|n IH]; [reflexivity|].
  cbn [sync_repeatedly repeat]. now rewrite Hone, IH.
Qed.

Lemma sync_up_to_date_noop_witness :
  let d := _mark_records_as_synced
             (db (do_inserts [session 10 "u1"; blink 20 "u1" (Some 1)] (init empty))) in
  let w := mk_world 1000 (fun _ => 1 # 2) 0 in
  sync_repeatedly 3 w (init d)
  = (init d, w,
     repeat [sync_status_changed "Syncing..."; sync_status_changed "Up to date";
             sync_completed true] 3).
Proof.
  intros d w.
  apply (sync_up_to_date_noop w (init d) 3); reflexivity.
Defined.

End Sync.


(** ** Sample runs *)

Example timedelta_str_samples :
  timedelta_str 3605000000 = "1:00:05"%string /\
  timedelta_str 3605250000 = "1:00:05.250000"%string /\
  timedelta_str (timedelta_of_days 2 + 61000001) = "2 days, 0:01:01.000001"%string /\
  timedelta_str (-1) = "-1 day, 23:59:59.999999"%string /\
  split_head "." (timedelta_str 3605250000) = "1:00:05"%string.
Proof. repeat split; reflexivity. Qed.

Example track_frame_blink :
  let closed := repeat false 5 in
  let frames := closed ++ [true] in
  let run := fold_left (fun st eyes => fst (EyeTracker.track_frame 7 eyes st)) in
  EyeTracker.total_blinks (fst (run frames (EyeTracker.init, O))) = 1 /\
  EyeTracker.total_blinks (fst (run (repeat false 4 ++ [true]) (EyeTracker.init, O))) = 0.
Proof. split; reflexivity. Qed.

Example sync_success_run :
  let s := DataManager.do_inserts
             [DataManager.session 10 "u1"; DataManager.blink 20 "u1" (Some 1)]
             (DataManager.init DataManager.empty) in
  let w := DataManager.mk_world 1000 (fun _ => 1 # 2) 0 in
  let s' := fst (fst (DataManager.sync_data w s)) in
  DataManager._get_unsynced_count (DataManager.db s') = 0 /\
  map DataManager.sl_records_synced (DataManager.sync_log (DataManager.db s')) = [2] /\
  DataManager.last_sync_time s' = Some 1001000 /\
  snd (DataManager.sync_data w s) =
    [DataManager.sync_status_changed "Syncing...";
     DataManager.sync_status_changed "Sync complete";
     DataManager.sync_completed true].
Proof. repeat split; reflexivity. Qed.


(** * Further properties of the code *)

(** ** Printing of durations *)

Section Durations.

Lemma split_head_app (sep : ascii) (s1 s2 : string) :
  split_head sep s1 = s1 ->
  split_head sep (s1 ++ s2) = (s1 ++ split_head sep s2)%string.
Proof.
  induction s1 as [|c s1 IH]; cbn; [reflexivity|].
  destruct (Ascii.eqb c sep); [discriminate|].
  intros H. injection H as H. now rewrite IH.
Qed.

Lemma split_head_uint (d : Decimal.uint) :
  split_head "." (NilEmpty.string_of_uint d) = NilEmpty.string_of_uint d.
Proof.
  induction d; cbn; rewrite ?IHd; reflexivity.
Qed.

Lemma split_head_str_of_int (n : Z) :
  split_head "." (str_of_int n) = str_of_int n.
Proof.
  unfold str_of_int, NilZero.string_of_int, NilZero.string_of_uint.
  destruct (Z.to_int n) as [d|d]; destruct d; cbn;
    rewrite ?split_head_uint; reflexivity.
Qed.

Lemma split_head_zeros (k : nat) :
  split_head "." (string_of_list_ascii (repeat "0"%char k))
  = string_of_list_ascii (repeat "0"%char k).
Proof.
  induction k as [|k IH]; cbn; [reflexivity | now rewrite IH].
Qed.

Lemma split_head_padded (w : nat) (n : Z) :
  split_head "." (str_of_int_padded w n) = str_of_int_padded w n.
Proof.
  unfold str_of_int_padded, zero_pad.
  rewrite split_head_app by apply split_head_zeros.
  now rewrite split_head_str_of_int.
Qed.

Lemma split_head_colon (s : string) :
  split_head "." (":" ++ s) = (":" ++ split_head "." s)%string.
Proof. reflexivity. Qed.

(** The part of [str(timedelta)] before the microseconds. *)
Lemma timedelta_str_shape (d : timedelta) :
  exists base : string,
    split_head "." base = base /\
    timedelta_str d =
      (if (d mod 86400000000 mod 1000000 =? 0)%Z then base
       else base ++ "." ++ str_of_int_padded 6 (d mod 86400000000 mod 1000000)%Z)%string /\
    timedelta_str (whole_seconds d) = base.
Proof.
  assert (Hrest : d mod 86400000000 = d mod 1000000 + 1000000 * ((d / 1000000) mod 86400)).
  { change 86400000000 with (1000000 * 86400). apply Z.rem_mul_r; lia. }
  assert (Hdays : d / 86400000000 = d / 1000000 / 86400).
  { change 86400000000 with (1000000 * 86400). symmetry. apply Z.div_div; lia. }
  assert (Hr : 0 <= d mod 1000000 < 1000000) by (apply Z.mod_pos_bound; lia).
  assert (Hw : whole_seconds d = 1000000 * (d / 1000000)).
  { unfold whole_seconds. pose proof (Z.div_mod d 1000000). lia. }
  assert (Hwdiv : whole_seconds d / 1000000 = d / 1000000).
  { rewrite Hw, Z.mul_comm. apply Z.div_mul. lia. }
  assert (Hwmod : whole_seconds d mod 1000000 = 0).
  { rewrite Hw, Z.mul_comm. apply Z.mod_mul. lia. }
  assert (Hwrest : whole_seconds d mod 86400000000
                   = 1000000 * ((d / 1000000) mod 86400)).
  { change 86400000000 with (1000000 * 86400).
    rewrite Z.rem_mul_r, Hwmod, Hwdiv by lia. lia. }
  assert (Hsec : d mod 86400000000 / 1000000 = (d / 1000000) mod 86400).
  { rewrite Hrest, Z.add_comm, (Z.mul_comm 1000000), Z.div_add_l by lia.
    rewrite (Z.div_small (d mod 1000000)) by lia. lia. }
  assert (Hmic : d mod 86400000000 mod 1000000 = d mod 1000000).
  { rewrite Hrest, (Z.mul_comm 1000000), Z.mod_add by lia.
    apply Z.mod_small. lia. }
  assert (Hwsec : whole_seconds d mod 86400000000 / 1000000 = (d / 1000000) mod 86400).
  { rewrite Hwrest, Z.mul_comm. apply Z.div_mul. lia. }
  assert (Hwmic : whole_seconds d mod 86400000000 mod 1000000 = 0).
  { rewrite Hwrest, Z.mul_comm. apply Z.mod_mul. lia. }
  assert (Hwdays : whole_seconds d / 86400000000 = d / 1000000 / 86400).
  { change 86400000000 with (1000000 * 86400).
    rewrite <- Z.div_div, Hwdiv by lia. reflexivity. }
  unfold timedelta_str.
  rewrite Hwsec, Hwmic, Hwdays, Hsec, Hdays, Hmic. cbn [Z.eqb].
  set (seconds := (d / 1000000) mod 86400).
  set (days := d / 1000000 / 86400).
  set (clock := (str_of_int (seconds / 60 / 60) ++ ":"
                 ++ str_of_int_padded 2 (seconds / 60 mod 60) ++ ":"
                 ++ str_of_int_padded 2 (seconds mod 60))%string).
  assert (Hclock : split_head "." clock = clock).
  { unfold clock.
    rewrite split_head_app by apply split_head_str_of_int.
    rewrite split_head_colon.
    rewrite split_head_app by apply split_head_padded.
    now rewrite split_head_colon, split_head_padded. }
  set (plural := if Z.abs days =? 1 then ""%string else "s"%string).
  set (base := if days =? 0 then clock
               else (str_of_int days ++ " day" ++ plural ++ ", " ++ clock)%string).
  exists base. split; [|split; reflexivity].
  unfold base. destruct (days =? 0); [exact Hclock|].
  rewrite split_head_app by apply split_head_str_of_int.
  unfold plural. destruct (Z.abs days =? 1);
    cbn [append split_head Ascii.eqb Bool.eqb]; now rewrite Hclock.
Qed.

(** X1: [str(delta).split('.')[0]], the expression of [get_current_data] and
    [get_system_uptime], is the printed form of the duration cut down to
    whole seconds: the microseconds go, nothing else changes. *)
Theorem duration_without_microseconds :
  forall (d : timedelta),
    split_head "." (timedelta_str d) = timedelta_str (whole_seconds d) /\
    (forall (now start : datetime) (s : EyeTracker.t),
        EyeTracker.session_start_time s = Some start ->
        now - start = d ->
        EyeTracker.d_session_duration (EyeTracker.get_current_data now s)
        = timedelta_str (whole_seconds d)) /\
    (forall (now boot : datetime) (m : SystemMonitor.metrics),
        SystemMonitor.boot_time m = Some boot ->
        now - boot = d ->
        SystemMonitor.get_system_uptime now m = timedelta_str (whole_seconds d)).
Proof.
  intros d.
  assert (H : split_head "." (timedelta_str d) = timedelta_str (whole_seconds d)).
  { destruct (timedelta_str_shape d) as (base & Hbase & Hd & Hw).
    rewrite Hd, Hw.
    destruct (d mod 86400000000 mod 1000000 =? 0); [exact Hbase|].
    rewrite split_head_app by exact Hbase.
    cbn [append split_head Ascii.eqb Bool.eqb].
    clear. induction base as [|c base IH]; cbn; [reflexivity | now rewrite IH]. }
  split; [exact H|]. split.
  - intros now start s Hs Hd. unfold EyeTracker.get_current_data.
    rewrite Hs. cbn. now rewrite Hd.
  - intros now boot m Hb Hd. unfold SystemMonitor.get_system_uptime.
    now rewrite Hb, Hd.
Qed.

Lemma duration_without_microseconds_witness :
  EyeTracker.d_session_duration
    (EyeTracker.get_current_data 3725999999
       (fst (EyeTracker.start 0 true 0 EyeTracker.init)))
  = "1:02:05"%string.
Proof.
  destruct (duration_without_microseconds 3725999999) as (_ & H & _).
  apply (H 3725999999 0 (fst (EyeTracker.start 0 true 0 EyeTracker.init)));
    reflexivity.
Defined.

End Durations.

(** ** The behavioural sampler, continued *)

Section Sampler.

Import EyeTracker.

Lemma track_frames_app (f1 f2 : list (datetime * bool)) (st : t * nat) :
  track_frames (f1 ++ f2) st = track_frames f2 (track_frames f1 st).
Proof. apply fold_left_app. Qed.

Lemma track_frames_closed (times : list datetime) : forall (s : t) (c : nat),
  track_frames (closed_run times) (s, c) = (s, (c + List.length times)%nat).
Proof.
  induction times as [|now times IH]; intros s c.
  - cbn. now rewrite Nat.add_0_r.
  - cbn [closed_run map track_frames fold_left fst snd track_frame negb].
    fold (closed_run times). fold (track_frames (closed_run times) (s, S c)).
    rewrite IH. cbn [List.length]. f_equal. lia.
Qed.

(** X2: The blink rule of [_tracking_loop]: frames without both eyes only
    advance the counter and never record a blink, however many there are;
    the first frame with both eyes after a run of them records one blink,
    at its own time, exactly when the counter has reached the threshold of
    five, and resets the counter either way. *)
Theorem blink_needs_five_closed_frames :
  forall (times : list datetime) (now : datetime) (s : t) (c : nat),
    track_frames (closed_run times) (s, c) = (s, (c + List.length times)%nat) /\
    track_frames (closed_run times ++ [(now, true)]) (s, c)
    = (if (5 <=? c + List.length times)%nat then fst (_record_blink now s) else s,
       O).
Proof.
  intros times now s c. split; [apply track_frames_closed|].
  rewrite track_frames_app, track_frames_closed.
  cbn [track_frames fold_left fst snd track_frame negb].
  unfold blink_threshold.
  destruct (5 <=? c + List.length times)%nat; reflexivity.
Qed.

(** X3: [start] and [stop] at the wrong moment do nothing, so each is
    idempotent; [stop] keeps the counters of the session it ends; and a
    session started after a stop begins with no blinks, an empty history and
    a fresh start time, while the time of the last blink of the previous
    session stays. *)
Theorem start_stop_lifecycle :
  forall (now now' : datetime) (cam cam' : bool) (iv iv' : Z) (s : t),
    let started := fst (start now cam iv s) in
    let stopped := fst (stop s) in
    start now' cam' iv' started = (started, []) /\
    is_running started = true /\
    stop stopped = (stopped, []) /\
    is_running stopped = false /\
    (total_blinks stopped, session_start_time stopped,
     last_blink_time stopped, blink_history stopped)
    = (total_blinks s, session_start_time s, last_blink_time s, blink_history s) /\
    let restarted := fst (start now' cam' iv' stopped) in
    (total_blinks restarted, session_start_time restarted,
     last_blink_time restarted, blink_history restarted, simulation_mode restarted)
    = (0, Some now', last_blink_time s, [], negb cam').
Proof.
  intros now now' cam cam' iv iv' s. unfold start, stop.
  destruct (is_running s) eqn:E; cbn; rewrite ?E; cbn; repeat split.
Qed.

Lemma handle_invariant (ev : event) (st : t * nat) :
  let inv (s : t) :=
    0 <= total_blinks s /\
    Z.of_nat (List.length (blink_history s)) <= total_blinks s /\
    (blink_history s <> [] ->
     exists latest, last_blink_time s = Some latest /\
                    last (blink_history s) 0 = latest /\
                    Forall (fun t => latest - timedelta_of_minutes 5 < t)
                           (blink_history s)) in
  inv (fst st) -> inv (fst (handle ev st)).
Proof.
  intros inv. destruct st as [s c].
  assert (Hrec : forall now, inv s -> inv (fst (_record_blink now s))).
  { intros now (Hpos & Hlen & _). unfold inv.
    cbn [_record_blink fst total_blinks blink_history last_blink_time].
    change (fun t0 : Z => now - timedelta_of_minutes 5 <? t0) with (recent now).
    rewrite filter_app. cbn [filter]. rewrite recent_self.
    split; [lia|]. split.
    - rewrite length_app. cbn [List.length].
      pose proof (filter_length_le (recent now) (blink_history s)). lia.
    - intros _. exists now. split; [reflexivity|]. split; [apply last_last|].
      apply Forall_app. split.
      + apply Forall_forall. intros t Ht. apply filter_In in Ht.
        destruct Ht as [_ Ht]. unfold recent in Ht. now apply Z.ltb_lt.
      + constructor; [|constructor]. unfold timedelta_of_minutes. lia. }
  destruct ev as [now eyes|now interval|now]; cbn [handle fst snd].
  - unfold track_frame. destruct eyes; cbn [negb]; [|intros H; exact H].
    destruct (blink_threshold <=? c)%nat; [|intros H; exact H].
    intros H. apply (Hrec now) in H.
    now destruct (_record_blink now s).
  - intros H. apply (Hrec now) in H. unfold _simulate_blink.
    now destruct (_record_blink now s).
  - intros _. unfold inv. cbn. repeat split; try lia. congruence.
Qed.

(** X4: Whatever happens to a started sampler (frames, simulated blinks,
    session resets, at any times), [total_blinks] is never negative, the
    history never holds more entries than blinks were counted, and a
    non-empty history ends with the time of the last blink and holds only
    times later than five minutes before it. *)
Theorem sampler_history_bounded :
  forall (evs : list event) (now : datetime) (cam : bool) (iv : Z) (s0 : t),
    is_running s0 = false ->
    let s := fst (handle_all evs (fst (start now cam iv s0), O)) in
    0 <= total_blinks s /\
    Z.of_nat (List.length (get_blink_history s)) <= total_blinks s /\
    (get_blink_history s <> [] ->
     exists latest, last_blink_time s = Some latest /\
                    last (get_blink_history s) 0 = latest /\
                    Forall (fun t => latest - timedelta_of_minutes 5 < t)
                           (get_blink_history s)).
Proof.
  intros evs now cam iv s0 Hidle.
  unfold get_blink_history.
  assert (Hgen : forall st : t * nat,
             (0 <= total_blinks (fst st) /\
              Z.of_nat (List.length (blink_history (fst st))) <= total_blinks (fst st) /\
              (blink_history (fst st) <> [] ->
               exists latest, last_blink_time (fst st) = Some latest /\
                    last (blink_history (fst st)) 0 = latest /\
                    Forall (fun t => latest - timedelta_of_minutes 5 < t)
                           (blink_history (fst st)))) ->
             let s := fst (handle_all evs st) in
             0 <= total_blinks s /\
             Z.of_nat (List.length (blink_history s)) <= total_blinks s /\
             (blink_history s <> [] ->
              exists latest, last_blink_time s = Some latest /\
                    last (blink_history s) 0 = latest /\
                    Forall (fun t => latest - timedelta_of_minutes 5 < t)
                           (blink_history s))).
  { induction evs as [|ev evs IH]; intros st Hst; [exact Hst|].
    change (handle_all (ev :: evs) st) with (handle_all evs (handle ev st)).
    apply IH. now apply (handle_invariant ev st). }
  apply Hgen. unfold start. rewrite Hidle. cbn.
  repeat split; try lia. congruence.
Qed.

Lemma sampler_history_bounded_witness :
  let evs := [Frame 1 false; TimerFired 2 3000; SessionReset 3;
              TimerFired 400000000 4000; TimerFired 100000000 5000] in
  let s := fst (handle_all evs (fst (start 0 false 3000 init), O)) in
  Z.of_nat (List.length (get_blink_history s)) <= total_blinks s.
Proof.
  intros evs s.
  apply (sampler_history_bounded evs 0 false 3000 init eq_refl).
Defined.



End Sampler.

(** ** The telemetry sampler, continued *)

Section Telemetry.

Import SystemMonitor.

Ltac q_gap Hgap :=
  exfalso;
  match goal with
  | H1 : (?lo < ?x)%Q, H2 : (?x <= ?hi)%Q |- _ =>
      solve [apply (Hgap x lo hi H1 H2); discriminate]
  end.

Ltac q_chain Hchain :=
  exfalso;
  match goal with
  | H1 : (?lo < ?x)%Q, H2 : (?x <= ?y)%Q, H3 : (?y <= ?hi)%Q |- _ =>
      solve [apply (Hchain x y lo hi H1 H2 H3); discriminate]
  end.

(** X6: The power impact is "High" above 80, "Medium" above 50 up to 80, "Low"
    above 20 up to 50 and "Very Low" up to 20, each bound being strict from
    below; so a higher CPU reading never gives a lighter answer. *)
Theorem power_impact_monotone :
  forall (m m' : metrics),
    (get_power_impact_estimate m = "High"%string <-> (80 < cpu_percent m)%Q) /\
    (get_power_impact_estimate m = "Medium"%string
       <-> (50 < cpu_percent m)%Q /\ (cpu_percent m <= 80)%Q) /\
    (get_power_impact_estimate m = "Low"%string
       <-> (20 < cpu_percent m)%Q /\ (cpu_percent m <= 50)%Q) /\
    (get_power_impact_estimate m = "Very Low"%string <-> (cpu_percent m <= 20)%Q) /\
    ((cpu_percent m <= cpu_percent m')%Q ->
     (impact_rank (get_power_impact_estimate m)
      <= impact_rank (get_power_impact_estimate m'))%nat).
Proof.
  intros m m'.
  assert (Hcase : forall x : metrics,
             ((80 < cpu_percent x)%Q /\ get_power_impact_estimate x = "High"%string) \/
             ((50 < cpu_percent x)%Q /\ (cpu_percent x <= 80)%Q
              /\ get_power_impact_estimate x = "Medium"%string) \/
             ((20 < cpu_percent x)%Q /\ (cpu_percent x <= 50)%Q
              /\ get_power_impact_estimate x = "Low"%string) \/
             ((cpu_percent x <= 20)%Q
              /\ get_power_impact_estimate x = "Very Low"%string)).
  { intros x. unfold get_power_impact_estimate.
    destruct (Qltb 80 (cpu_percent x)) eqn:E80.
    { left. split; [now apply Qltb_lt | reflexivity]. }
    destruct (Qltb 50 (cpu_percent x)) eqn:E50.
    { right; left. split; [now apply Qltb_lt|]. split; [now apply Qltb_ge | reflexivity]. }
    destruct (Qltb 20 (cpu_percent x)) eqn:E20.
    { right; right; left.
      split; [now apply Qltb_lt|]. split; [now apply Qltb_ge | reflexivity]. }
    right; right; right. split; [now apply Qltb_ge | reflexivity]. }
  assert (Hgap : forall x lo hi : Q,
             (lo < x)%Q -> (x <= hi)%Q -> (hi <= lo)%Q -> False).
  { intros x lo hi H1 H2 H3. apply (Qlt_irrefl lo).
    eapply Qlt_le_trans; [exact H1|]. eapply Qle_trans; eassumption. }
  assert (Hchain : forall x y lo hi : Q,
             (lo < x)%Q -> (x <= y)%Q -> (y <= hi)%Q -> (hi <= lo)%Q -> False).
  { intros x y lo hi H1 H2 H3 H4. apply (Hgap x lo hi H1); [|exact H4].
    eapply Qle_trans; eassumption. }
  pose proof (Hcase m) as Hm.
  split; [|split; [|split; [|split]]].
  - split; intros Hyp;
      destruct Hm as [[B E]|[(B1 & B2 & E)|[(B1 & B2 & E)|(B & E)]]];
      try assumption; try (rewrite E in Hyp; discriminate); q_gap Hgap.
  - split; [intros Hyp | intros [Hyp1 Hyp2]];
      destruct Hm as [[B E]|[(B1 & B2 & E)|[(B1 & B2 & E)|(B & E)]]];
      try (split; assumption); try assumption;
      try (rewrite E in Hyp; discriminate); q_gap Hgap.
  - split; [intros Hyp | intros [Hyp1 Hyp2]];
      destruct Hm as [[B E]|[(B1 & B2 & E)|[(B1 & B2 & E)|(B & E)]]];
      try (split; assumption); try assumption;
      try (rewrite E in Hyp; discriminate); q_gap Hgap.
  - split; intros Hyp;
      destruct Hm as [[B E]|[(B1 & B2 & E)|[(B1 & B2 & E)|(B & E)]]];
      try assumption; try (rewrite E in Hyp; discriminate); q_gap Hgap.
  - intros Hle.
    destruct Hm as [[B E]|[(B1 & B2 & E)|[(B1 & B2 & E)|(B & E)]]];
      destruct (Hcase m') as [[B' E']|[(B1' & B2' & E')|[(B1' & B2' & E')|(B' & E')]]];
      rewrite E, E'; cbn; try lia; q_chain Hchain.
Qed.

Lemma power_impact_monotone_witness :
  let m := set_cpu_percent 80 (init (Returns 0)) in
  let m' := set_cpu_percent (161 # 2) (init (Returns 0)) in
  (impact_rank (get_power_impact_estimate m)
   <= impact_rank (get_power_impact_estimate m'))%nat.
Proof.
  intros m m'.
  apply (power_impact_monotone (set_cpu_percent 80 (init (Returns 0)))
           (set_cpu_percent (161 # 2) (init (Returns 0)))).
  discriminate.
Defined.

(** X7: When the disk query answers with [0 <= used <= total], the stored disk
    usage is [used / total * 100] and lies between 0 and 100; when it
    answers with a total of zero, the division fails inside the update, the
    update still returns and the dictionary is left as it was. *)
Theorem disk_usage_percent_bounds :
  forall (h : host) (m : metrics) (d : sdiskusage),
    has_disk_usage h = true ->
    psutil_disk_usage h = Returns d ->
    0 <= du_used d <= du_total d ->
    let r := _update_disk_metrics h m in
    fst r = Returns tt /\
    (du_total d = 0 -> snd r = m) /\
    (0 < du_total d ->
     (disk_usage_percent (snd r) == (du_used d * 100 # 1) / inject_Z (du_total d))%Q /\
     (0 <= disk_usage_percent (snd r))%Q /\
     (disk_usage_percent (snd r) <= 100)%Q).
Proof.
  intros h m d Hhas Hread Hrange r. subst r.
  unfold _update_disk_metrics, try_except, bind, call, assign, ret, true_div,
    log_error.
  rewrite Hhas, Hread.
  destruct (du_total d =? 0) eqn:Ez.
  - cbn. split; [reflexivity|]. split; [reflexivity|].
    apply Z.eqb_eq in Ez. lia.
  - cbn. apply Z.eqb_neq in Ez. split; [reflexivity|].
    split; [intros Hz; contradiction|]. intros Hpos.
    destruct (du_total d) as [|tp|tp] eqn:Et; try lia.
    assert (Hval : (inject_Z (du_used d) / inject_Z (Z.pos tp) * 100
                    == (du_used d * 100 # 1) / inject_Z (Z.pos tp))%Q).
    { unfold Qdiv, Qinv, Qmult, Qeq, inject_Z. cbn. lia. }
    split; [exact Hval|].
    unfold Qdiv, Qinv, Qmult, Qle, inject_Z. cbn. split; nia.
Qed.

Lemma disk_usage_percent_bounds_witness :
  let m := snd (_update_disk_metrics laptop_online (init (Returns 0))) in
  (disk_usage_percent m == 25)%Q.
Proof.
  intros m.
  assert (Hr : 0 <= 50 <= 200) by lia.
  destruct (disk_usage_percent_bounds laptop_online (init (Returns 0))
              {| du_total := 200; du_used := 50 |} eq_refl eq_refl Hr)
    as (_ & _ & H).
  destruct (H eq_refl) as (Hval & _).
  eapply Qeq_trans; [exact Hval|]. reflexivity.
Defined.

Lemma after_idempotent (h : host) :
  (forall x, cpu_after h (cpu_after h x) = cpu_after h x) /\
  (forall x, memory_after h (memory_after h x) = memory_after h x) /\
  (forall x, disk_after h (disk_after h x) = disk_after h x) /\
  (forall x, battery_after h (battery_after h x) = battery_after h x) /\
  (forall x, processes_after h (processes_after h x) = processes_after h x).
Proof.
  unfold cpu_after, memory_after, disk_after, battery_after, processes_after.
  repeat split; intros x.
  - now destruct (psutil_cpu_percent h).
  - now destruct (psutil_virtual_memory h).
  - destruct (has_disk_usage h); [|reflexivity].
    destruct (psutil_disk_usage h) as [d|]; [|reflexivity].
    now destruct (du_total d =? 0).
  - destruct (has_sensors_battery h); [|reflexivity].
    now destruct (psutil_sensors_battery h) as [[b|]|].
  - now destruct (psutil_pids h).
Qed.

Lemma tick_effect (h : host) (m : metrics) :
  snd (tick h m) =
    let mem := memory_after h (memory_percent m, memory_used_mb m, memory_total_mb m) in
    let bat := battery_after h (battery_percent m, power_connected m) in
    {| cpu_percent := cpu_after h (cpu_percent m);
       memory_percent := fst (fst mem);
       memory_used_mb := snd (fst mem);
       memory_total_mb := snd mem;
       disk_usage_percent := disk_after h (disk_usage_percent m);
       network_available := network_after h;
       battery_percent := fst bat;
       power_connected := snd bat;
       process_count := processes_after h (process_count m);
       boot_time := boot_time m |}.
Proof.
  rewrite tick_run. cbv zeta. cbn [snd].
  rewrite update_cpu_effect, update_memory_effect, update_disk_effect,
    update_network_effect, update_battery_effect, update_process_effect.
  destruct m as [c mp mu mt dk nw bp pc n bt]. reflexivity.
Qed.

(** X8: A tick that meets the same answers as the tick before changes nothing:
    the dictionary after two such ticks is the one after the first. *)
Theorem tick_idempotent :
  forall (h : host) (m : metrics),
    snd (tick h (snd (tick h m))) = snd (tick h m).
Proof.
  intros h m. rewrite (tick_effect h (snd (tick h m))), (tick_effect h m).
  cbv zeta.
  cbn [cpu_percent memory_percent memory_used_mb memory_total_mb
       disk_usage_percent network_available battery_percent power_connected
       process_count boot_time].
  destruct (after_idempotent h) as (Hc & Hm & Hd & Hb & Hp).
  rewrite Hc, Hd, Hp, <- !surjective_pairing, Hm, Hb. reflexivity.
Qed.

Lemma monitoring_loop_cons (h : host) (l : list host) (m : metrics) :
  _monitoring_loop (h :: l) m =
    (fst (_monitoring_loop l (snd (tick h m))),
     metrics_updated (snd (tick h m)) :: snd (_monitoring_loop l (snd (tick h m)))).
Proof.
  cbn [_monitoring_loop].
  assert (H : tick h m = (Returns (metrics_updated (snd (tick h m))), snd (tick h m))).
  { rewrite tick_run. reflexivity. }
  destruct (tick h m) as [o m']. cbn [snd] in *. injection H as ->.
  now destruct (_monitoring_loop l m').
Qed.

Lemma monitoring_loop_app (t1 t2 : list host) : forall m,
  _monitoring_loop (t1 ++ t2) m =
    (fst (_monitoring_loop t2 (fst (_monitoring_loop t1 m))),
     snd (_monitoring_loop t1 m) ++ snd (_monitoring_loop t2 (fst (_monitoring_loop t1 m)))).
Proof.
  induction t1 as [|h t1 IH]; intros m.
  - cbn. now destruct (_monitoring_loop t2 m).
  - cbn [app]. rewrite !monitoring_loop_cons, IH. reflexivity.
Qed.

(** X9: The monitoring loop applies the ticks in order; every snapshot it emits
    is the dictionary as that tick left it, so the last one emitted is what
    [get_current_data] returns afterwards; and the boot time recorded at
    initialisation is never touched. *)
Theorem monitoring_loop_snapshots :
  forall (ticks : list host) (h : host) (m : metrics),
    let r := _monitoring_loop (ticks ++ [h]) m in
    fst r = fold_left (fun m h => snd (tick h m)) (ticks ++ [h]) m /\
    last (snd r) monitoring_started = metrics_updated (get_current_data (fst r)) /\
    fst r = snd (tick h (fst (_monitoring_loop ticks m))) /\
    boot_time (fst r) = boot_time m.
Proof.
  intros ticks h m r.
  assert (Hfold : forall l m0,
             fst (_monitoring_loop l m0) = fold_left (fun m h => snd (tick h m)) l m0).
  { induction l as [|h0 l IH]; intros m0; [reflexivity|].
    rewrite monitoring_loop_cons. cbn [fst fold_left]. apply IH. }
  assert (Hboot : forall l m0, boot_time (fst (_monitoring_loop l m0)) = boot_time m0).
  { induction l as [|h0 l IH]; intros m0; [reflexivity|].
    rewrite monitoring_loop_cons. cbn [fst]. rewrite IH, tick_effect. reflexivity. }
  split; [apply Hfold|]. split; [|split; [|apply Hboot]].
  - subst r. rewrite monitoring_loop_app, monitoring_loop_cons. cbn [fst snd].
    cbn [_monitoring_loop fst snd]. now rewrite last_last.
  - subst r. rewrite monitoring_loop_app, monitoring_loop_cons. reflexivity.
Qed.

End Telemetry.

(** ** The durable store, continued *)

Section Sessions.

Import DataManager.

Lemma next_id_above {A} (id : A -> Z) (rows : list A) :
  0 < next_id id rows /\ forall r, In r rows -> id r < next_id id rows.
Proof.
  unfold next_id. induction rows as [|x rows [IHpos IH]]; cbn [map fold_right].
  - split; [lia | intros r []].
  - split; [lia|]. intros r [<-|Hr]; [lia|]. specialize (IH r Hr). lia.
Qed.

Lemma next_id_fresh {A} (id : A -> Z) (rows : list A) :
  ~ In (next_id id rows) (map id rows).
Proof.
  intros Hin. apply in_map_iff in Hin. destruct Hin as (r & Heq & Hr).
  apply (next_id_above id) in Hr. lia.
Qed.

Lemma NoDup_snoc {A} (l : list A) (x : A) :
  NoDup l -> ~ In x l -> NoDup (l ++ [x]).
Proof.
  intros Hl Hx. apply NoDup_app; [exact Hl | repeat constructor; auto |].
  intros a Ha [<-|[]]. contradiction.
Qed.

Lemma map_mark_session_id l : map es_id (map mark_session l) = map es_id l.
Proof.
  rewrite map_map. apply map_ext. intros r. unfold mark_session.
  now destruct (es_synced r =? 0).
Qed.

Lemma map_mark_metric_id l : map sm_id (map mark_metric l) = map sm_id l.
Proof.
  rewrite map_map. apply map_ext. intros r. unfold mark_metric.
  now destruct (sm_synced r =? 0).
Qed.

Lemma map_mark_blink_id l : map be_id (map mark_blink l) = map be_id l.
Proof.
  rewrite map_map. apply map_ext. intros r. unfold mark_blink.
  now destruct (be_synced r =? 0).
Qed.

Lemma do_insert_ids (i : insert) (s : t) :
  ids_unique (db s) -> ids_unique (db (do_insert i s)).
Proof.
  intros (Hs & Hm & Hb & Hl). unfold ids_unique.
  destruct i; cbn [do_insert save_session_data save_blink_event
    start_eye_session fst db with_db eye_sessions system_metrics
    blink_events sync_log]; rewrite ?map_app; cbn [map];
    repeat split; try assumption;
    apply NoDup_snoc; try assumption; apply next_id_fresh.
Qed.

Lemma end_eye_session_ids now sid n bpm (s : t) :
  map es_id (eye_sessions (db (end_eye_session now sid n bpm s)))
  = map es_id (eye_sessions (db s)).
Proof.
  cbn [end_eye_session db with_db eye_sessions].
  rewrite map_map. apply map_ext. intros r. now destruct (es_id r =? sid).
Qed.

Lemma sync_attempt_ids (w : world) (s : t) :
  ids_unique (db s) -> ids_unique (db (fst (fst (sync_attempt w s)))).
Proof.
  intros (Hs & Hm & Hb & Hl). unfold sync_attempt, ids_unique.
  destruct (_get_unsynced_count (db s) =? 0); [cbn; auto|].
  destruct (_simulate_cloud_sync w) as [[] w'];
    cbn [fst db with_db _log_sync_result _mark_records_as_synced
         eye_sessions system_metrics blink_events sync_log];
    rewrite ?map_mark_session_id, ?map_mark_metric_id, ?map_mark_blink_id,
      ?map_app; cbn [map];
    repeat split; try assumption;
    apply NoDup_snoc; try assumption; apply next_id_fresh.
Qed.

Lemma exec_ids (o : op) (c : t * world) :
  ids_unique (db (fst c)) -> ids_unique (db (fst (exec o c))).
Proof.
  destruct c as [s w]. cbn [fst]. intros H.
  destruct o as [i|now sid n bpm|]; cbn [exec fst].
  - now apply do_insert_ids.
  - destruct H as (Hs & Hm & Hb & Hl). unfold ids_unique.
    rewrite end_eye_session_ids. cbn. auto.
  - unfold sync_data. destruct (is_syncing s) eqn:E; [exact H|].
    cbn [sync_enter].
    pose proof (sync_attempt_ids w (with_is_syncing true s) H) as H'.
    destruct (sync_attempt w (with_is_syncing true s)) as [[s' w'] out].
    exact H'.
Qed.

(** X10: Primary keys stay unique: whatever inserts, session closings and sync
    triggers a manager goes through, no table ever holds two rows with the
    same id, provided none did at the start (as in a fresh database); and
    the id that [start_eye_session] returns is that of the row it inserted,
    larger than every id the table held. *)
Theorem primary_keys_unique :
  forall (ops : list op) (s : t) (w : world) (now : datetime) (user_id : string),
    ids_unique (db s) ->
    ids_unique (db (fst (exec_all ops (s, w)))) /\
    ids_unique empty /\
    exists session_id,
      snd (start_eye_session now user_id s) = Some session_id /\
      (forall r, In r (eye_sessions (db s)) -> es_id r < session_id) /\
      option_map es_id (nth_error (eye_sessions (db (fst (start_eye_session now user_id s))))
                                  (List.length (eye_sessions (db s))))
      = Some session_id.
Proof.
  intros ops s w now user_id Huniq. split; [|split].
  - assert (Hgen : forall c : t * world,
               ids_unique (db (fst c)) -> ids_unique (db (fst (exec_all ops c)))).
    { induction ops as [|o ops IH]; intros c Hc; [exact Hc|].
      change (exec_all (o :: ops) c) with (exec_all ops (exec o c)).
      apply IH. now apply exec_ids. }
    apply (Hgen (s, w)). exact Huniq.
  - repeat split; constructor.
  - exists (next_id es_id (eye_sessions (db s))).
    split; [reflexivity|]. split; [apply next_id_above|].
    cbn [start_eye_session fst db with_db eye_sessions].
    rewrite nth_error_app2 by lia. now rewrite Nat.sub_diag.
Qed.

Lemma primary_keys_unique_witness :
  let ops := [Insert (session 10 "u1"); Insert (blink 20 "u1" (Some 1));
              Sync; EndSession 30 1 12 12; Insert (session 40 "u2"); Sync] in
  let w := mk_world 1000 (fun _ => 1 # 2) 0 in
  ids_unique (db (fst (exec_all ops (init empty, w)))).
Proof.
  intros ops w.
  assert (H : ids_unique (db (init empty))) by (repeat split; constructor).
  apply (primary_keys_unique ops (init empty) w 0 "u1" H).
Defined.



(** X12: Closing a session that is not in the table changes nothing; and closing
    a session never touches a sync flag, so the unsynced count stays as it
    was: after everything was marked as synced, a session closed afterwards
    is not counted and the next trigger answers "Up to date" without
    delivering its summary. *)
Theorem end_eye_session_keeps_sync_state :
  forall (now : datetime) (session_id n : Z) (bpm : Q) (s : t) (w : world),
    let closed := end_eye_session now session_id n bpm s in
    ((forall r, In r (eye_sessions (db s)) -> es_id r <> session_id) -> closed = s) /\
    map es_synced (eye_sessions (db closed)) = map es_synced (eye_sessions (db s)) /\
    _get_unsynced_count (db closed) = _get_unsynced_count (db s) /\
    (is_syncing s = false -> _get_unsynced_count (db s) = 0 ->
     sync_data w closed =
       (closed, w, [sync_status_changed "Syncing..."; sync_status_changed "Up to date";
                    sync_completed true])).
Proof.
  intros now session_id n bpm s w closed.
  assert (Hflags : map es_synced (eye_sessions (db closed))
                   = map es_synced (eye_sessions (db s))).
  { subst closed. cbn [end_eye_session db with_db eye_sessions].
    rewrite map_map. apply map_ext. intros r. now destruct (es_id r =? session_id). }
  assert (Hfilter : forall l l' : list eye_session,
             map es_synced l = map es_synced l' ->
             count_where (fun r => es_synced r =? 0) l
             = count_where (fun r => es_synced r =? 0) l').
  { unfold count_where. induction l as [|r l IH]; intros [|r' l'] H;
      try discriminate; [reflexivity|].
    cbn in H. injection H as Hr Hl. cbn [filter]. rewrite Hr.
    specialize (IH l' Hl). destruct (es_synced r' =? 0); cbn [List.length]; lia. }
  assert (Hcount : _get_unsynced_count (db closed) = _get_unsynced_count (db s)).
  { unfold _get_unsynced_count. rewrite (Hfilter _ _ Hflags). reflexivity. }
  split; [|split; [exact Hflags | split; [exact Hcount|]]].
  - intros Habsent. subst closed. destruct s as [d b l p].
    unfold end_eye_session, with_db. cbn [db is_syncing last_sync_time
      pending_sync_count] in *. f_equal. destruct d as [es sm be sl].
    cbn [eye_sessions system_metrics blink_events sync_log] in *. f_equal.
    apply map_id_on. intros r Hr. specialize (Habsent r Hr).
    apply Z.eqb_neq in Habsent. now rewrite Habsent.
  - intros Hidle Hzero.
    assert (Hidle' : is_syncing closed = false) by exact Hidle.
    rewrite sync_data_unfold by exact Hidle'.
    unfold sync_attempt. cbn [sync_enter fst snd db with_is_syncing].
    rewrite Hcount, Hzero. cbn [Z.eqb fst snd app].
    change (with_is_syncing true closed) with (fst (sync_enter closed)).
    now rewrite leave_after_enter.
Qed.

Lemma end_eye_session_keeps_sync_state_witness :
  let s := fst (start_eye_session 10 "u1" (init empty)) in
  let synced := with_db (_mark_records_as_synced (db s)) s in
  let closed := end_eye_session 70000010 1 12 12 synced in
  let w := mk_world 1000 (fun _ => 1 # 2) 0 in
  _get_unsynced_count (db closed) = 0 /\
  snd (sync_data w closed)
  = [sync_status_changed "Syncing..."; sync_status_changed "Up to date";
     sync_completed true].
Proof.
  intros s synced closed w.
  destruct (end_eye_session_keeps_sync_state 70000010 1 12 12 synced w)
    as (_ & _ & Hcount & Hsync).
  split; [exact Hcount|].
  fold closed in Hsync. rewrite (Hsync eq_refl eq_refl). reflexivity.
Defined.

End Sessions.

(** ** The sync engine, continued *)

Section SyncMore.

Import DataManager.

Lemma mark_content (d : database) :
  map session_content (eye_sessions (_mark_records_as_synced d))
    = map session_content (eye_sessions d) /\
  map metric_content (system_metrics (_mark_records_as_synced d))
    = map metric_content (system_metrics d) /\
  map blink_content (blink_events (_mark_records_as_synced d))
    = map blink_content (blink_events d).
Proof.
  cbn [_mark_records_as_synced eye_sessions system_metrics blink_events].
  rewrite !map_map. repeat split; apply map_ext; intros r.
  - unfold mark_session. now destruct (es_synced r =? 0).
  - unfold mark_metric. now destruct (sm_synced r =? 0).
  - unfold mark_blink. now destruct (be_synced r =? 0).
Qed.

(** The three outcomes of a trigger that finds the engine idle. *)
Lemma sync_data_cases (w : world) (s : t) :
  is_syncing s = false ->
  let count := _get_unsynced_count (db s) in
  let w1 := snd (_simulate_cloud_sync w) in
  sync_data w s =
    if count =? 0 then
      (s, w, [sync_status_changed "Syncing..."; sync_status_changed "Up to date";
              sync_completed true])
    else if fst (_simulate_cloud_sync w) then
      ({| db := _log_sync_result (clock w1) count true None
                  (_mark_records_as_synced (db s));
          is_syncing := false;
          last_sync_time := Some (clock w1);
          pending_sync_count := 0 |},
       w1,
       [sync_status_changed "Syncing..."; sync_status_changed "Sync complete";
        sync_completed true])
    else
      ({| db := _log_sync_result (clock w1) count false
                  (Some "Simulated failure"%string) (db s);
          is_syncing := false;
          last_sync_time := last_sync_time s;
          pending_sync_count := pending_sync_count s |},
       w1,
       [sync_status_changed "Syncing..."; sync_status_changed "Sync failed";
        sync_completed false]).
Proof.
  intros Hidle count w1. rewrite sync_data_unfold by exact Hidle.
  unfold sync_attempt. cbn [sync_enter fst snd db with_is_syncing].
  fold count. destruct (count =? 0).
  - cbn [fst snd app].
    change (with_is_syncing true s) with (fst (sync_enter s)).
    now rewrite leave_after_enter.
  - subst w1. destruct (_simulate_cloud_sync w) as [[] w1]; reflexivity.
Qed.

(** X13: When the delivery succeeds, nothing is left unsynced, the rows keep
    their contents (only flags change), the sync log grows by one row with
    the count that was delivered, [success = 1] and no message, the time of
    the sync is recorded, the pending counter is cleared, and the next
    trigger finds the store up to date. *)
Theorem sync_success_clears_backlog :
  forall (w : world) (s : t),
    is_syncing s = false ->
    _get_unsynced_count (db s) <> 0 ->
    fst (_simulate_cloud_sync w) = true ->
    let s' := fst (fst (sync_data w s)) in
    let w' := snd (fst (sync_data w s)) in
    _get_unsynced_count (db s') = 0 /\
    map session_content (eye_sessions (db s')) = map session_content (eye_sessions (db s)) /\
    map metric_content (system_metrics (db s')) = map metric_content (system_metrics (db s)) /\
    map blink_content (blink_events (db s')) = map blink_content (blink_events (db s)) /\
    sync_log (db s') =
      sync_log (db s) ++
        [{| sl_id := next_id sl_id (sync_log (db s));
            sl_sync_time := clock w + 1000000;
            sl_records_synced := _get_unsynced_count (db s);
            sl_success := 1;
            sl_error_message := None |}] /\
    snd (sync_data w s) =
      [sync_status_changed "Syncing..."; sync_status_changed "Sync complete";
       sync_completed true] /\
    last_sync_time s' = Some (clock w + 1000000) /\
    pending_sync_count s' = 0 /\
    is_syncing s' = false /\
    snd (sync_data w' s') =
      [sync_status_changed "Syncing..."; sync_status_changed "Up to date";
       sync_completed true].
Proof.
  intros w s Hidle Hcount Hok s' w'.
  pose proof (sync_data_cases w s Hidle) as Hcases. cbv zeta in Hcases.
  apply Z.eqb_neq in Hcount. rewrite Hcount, Hok in Hcases.
  subst s' w'. rewrite Hcases. cbn [fst snd db last_sync_time
    pending_sync_count is_syncing].
  destruct (mark_content (db s)) as (Hs & Hm & Hb).
  assert (Hzero : _get_unsynced_count
                    (_log_sync_result (clock (snd (_simulate_cloud_sync w)))
                       (_get_unsynced_count (db s)) true None
                       (_mark_records_as_synced (db s))) = 0)
    by apply (mark_records_count (db s)).
  split; [exact Hzero|].
  split; [exact Hs|]. split; [exact Hm|]. split; [exact Hb|].
  split; [reflexivity|]. split; [reflexivity|]. split; [reflexivity|].
  split; [reflexivity|]. split; [reflexivity|].
  rewrite sync_data_cases by reflexivity. cbv zeta. cbn [db].
  rewrite Hzero. reflexivity.
Qed.

Lemma sync_success_clears_backlog_witness :
  let s := do_inserts [session 10 "u1"; blink 20 "u1" (Some 1)] (init empty) in
  let w := mk_world 1000 (fun _ => 1 # 2) 0 in
  _get_unsynced_count (db (fst (fst (sync_data w s)))) = 0 /\
  last_sync_time (fst (fst (sync_data w s))) = Some 1001000.
Proof.
  intros s w.
  assert (Hc : _get_unsynced_count (db s) <> 0) by discriminate.
  destruct (sync_success_clears_backlog w s eq_refl Hc eq_refl)
    as (H0 & _ & _ & _ & _ & _ & Ht & _).
  split; [exact H0 | exact Ht].
Defined.

(** X14: Whatever the outcome, a sync trigger neither adds nor removes nor
    rewrites a record: the three tables keep their rows and the contents of
    each, only sync flags may change, and the number of unsynced records
    never grows; the rows already in the sync log stay, followed by at most
    one new row; and the engine is idle again if it was idle before. *)
Theorem sync_never_loses_records :
  forall (w : world) (s : t),
    let s' := fst (fst (sync_data w s)) in
    map session_content (eye_sessions (db s')) = map session_content (eye_sessions (db s)) /\
    map metric_content (system_metrics (db s')) = map metric_content (system_metrics (db s)) /\
    map blink_content (blink_events (db s')) = map blink_content (blink_events (db s)) /\
    _get_unsynced_count (db s') <= _get_unsynced_count (db s) /\
    (exists rows, sync_log (db s') = sync_log (db s) ++ rows
                  /\ (List.length rows <= 1)%nat) /\
    is_syncing s' = is_syncing s.
Proof.
  intros w s s'. subst s'.
  assert (Hnonneg : 0 <= _get_unsynced_count (db s)).
  { unfold _get_unsynced_count, count_where. lia. }
  assert (Hsame : forall x : t,
             db x = db s -> is_syncing x = is_syncing s ->
             map session_content (eye_sessions (db x))
               = map session_content (eye_sessions (db s)) /\
             map metric_content (system_metrics (db x))
               = map metric_content (system_metrics (db s)) /\
             map blink_content (blink_events (db x))
               = map blink_content (blink_events (db s)) /\
             _get_unsynced_count (db x) <= _get_unsynced_count (db s) /\
             (exists rows, sync_log (db x) = sync_log (db s) ++ rows
                           /\ (List.length rows <= 1)%nat) /\
             is_syncing x = is_syncing s).
  { intros x Hdb Hx. rewrite Hdb. repeat split; try lia; try exact Hx.
    exists []. split; [now rewrite app_nil_r | cbn; lia]. }
  destruct (is_syncing s) eqn:Hflag.
  - rewrite sync_data_guard by exact Hflag. cbn [fst].
    exact (Hsame s eq_refl Hflag).
  - rewrite sync_data_cases by exact Hflag. cbv zeta.
    destruct (_get_unsynced_count (db s) =? 0) eqn:Hz.
    + cbn [fst]. exact (Hsame s eq_refl Hflag).
    + destruct (fst (_simulate_cloud_sync w)); cbn [fst db is_syncing].
      * destruct (mark_content (db s)) as (Hs & Hm & Hb).
        split; [exact Hs|]. split; [exact Hm|]. split; [exact Hb|].
        split; [|split; [|reflexivity]].
        -- change (_get_unsynced_count (_mark_records_as_synced (db s))
                   <= _get_unsynced_count (db s)).
           rewrite mark_records_count. exact Hnonneg.
        -- eexists. split; [reflexivity | cbn; lia].
      * split; [reflexivity|]. split; [reflexivity|]. split; [reflexivity|].
        split; [|split; [|reflexivity]].
        -- change (_get_unsynced_count (db s) <= _get_unsynced_count (db s)). lia.
        -- eexists. split; [reflexivity | cbn; lia].
Qed.

(** X15: Retrying: when the next [n] deliveries fail and the one after them
    succeeds, [n + 1] triggers in a row leave nothing unsynced; each of them
    has appended its own row to the sync log and taken one delivery draw. *)
Theorem sync_retries_until_delivered :
  forall (n : nat) (w : world) (s : t),
    is_syncing s = false ->
    _get_unsynced_count (db s) <> 0 ->
    (forall i, (i < n)%nat ->
               Qltb (1 # 10) (random_draws w (draws_taken w + i)) = false) ->
    Qltb (1 # 10) (random_draws w (draws_taken w + n)) = true ->
    let r := sync_repeatedly (S n) w s in
    let s' := fst (fst r) in
    _get_unsynced_count (db s') = 0 /\
    List.length (sync_log (db s')) = (List.length (sync_log (db s)) + S n)%nat /\
    draws_taken (snd (fst r)) = (draws_taken w + S n)%nat /\
    List.length (snd r) = S n /\
    last (snd r) [] =
      [sync_status_changed "Syncing..."; sync_status_changed "Sync complete";
       sync_completed true] /\
    is_syncing s' = false.
Proof.
  induction n as [|n IH]; intros w s Hidle Hcount Hfail Hok r s'.
  - subst r s'. cbn [sync_repeatedly].
    rewrite Nat.add_0_r in Hok.
    assert (Hok' : fst (_simulate_cloud_sync w) = true) by exact Hok.
    pose proof (sync_data_cases w s Hidle) as Hcases. cbv zeta in Hcases.
    pose proof Hcount as Hne. apply Z.eqb_neq in Hne.
    rewrite Hne, Hok' in Hcases. rewrite Hcases. cbn [fst snd db is_syncing].
    split; [apply (mark_records_count (db s))|].
    split; [cbn; rewrite length_app; reflexivity|].
    split; [cbn; lia|]. repeat split.
  - subst r s'.
    change (sync_repeatedly (S (S n)) w s) with
      (let '(s1, w1, out) := sync_data w s in
       let '(s2, w2, outs) := sync_repeatedly (S n) w1 s1 in
       (s2, w2, out :: outs)).
    assert (Hfail0 : fst (_simulate_cloud_sync w) = false).
    { specialize (Hfail O (Nat.lt_0_succ n)). now rewrite Nat.add_0_r in Hfail. }
    pose proof (sync_data_cases w s Hidle) as Hcases. cbv zeta in Hcases.
    pose proof Hcount as Hne. apply Z.eqb_neq in Hne.
    rewrite Hne, Hfail0 in Hcases. rewrite Hcases.
    set (w1 := snd (_simulate_cloud_sync w)).
    set (s1 := {| db := _log_sync_result (clock w1) (_get_unsynced_count (db s))
                          false (Some "Simulated failure"%string) (db s);
                  is_syncing := false;
                  last_sync_time := last_sync_time s;
                  pending_sync_count := pending_sync_count s |}).
    assert (Hdraw : draws_taken w1 = S (draws_taken w)) by reflexivity.
    assert (Hrand : random_draws w1 = random_draws w) by reflexivity.
    specialize (IH w1 s1 eq_refl Hcount).
    assert (Hfail1 : forall i, (i < n)%nat ->
               Qltb (1 # 10) (random_draws w1 (draws_taken w1 + i)) = false).
    { intros i Hi. rewrite Hrand, Hdraw.
      replace (S (draws_taken w) + i)%nat with (draws_taken w + S i)%nat by lia.
      apply Hfail. lia. }
    assert (Hok1 : Qltb (1 # 10) (random_draws w1 (draws_taken w1 + n)) = true).
    { rewrite Hrand, Hdraw.
      replace (S (draws_taken w) + n)%nat with (draws_taken w + S n)%nat by lia.
      exact Hok. }
    specialize (IH Hfail1 Hok1). cbv zeta in IH.
    destruct IH as (I0 & Ilog & Idraw & Ilen & Ilast & Iidle).
    destruct (sync_repeatedly (S n) w1 s1) as [[s2 w2] outs].
    cbn [fst snd] in *.
    split; [exact I0|].
    split; [rewrite Ilog; subst s1; cbn; rewrite length_app; cbn; lia|].
    split; [lia|]. split; [cbn; lia|]. split; [|exact Iidle].
    destruct outs as [|o outs]; [discriminate Ilen | exact Ilast].
Qed.

Lemma sync_retries_until_delivered_witness :
  let s := do_inserts [session 10 "u1"; blink 20 "u1" (Some 1)] (init empty) in
  let w := mk_world 1000 (fun i => if (i <? 2)%nat then 1 # 20 else 1 # 2) 0 in
  let r := sync_repeatedly 3 w s in
  _get_unsynced_count (db (fst (fst r))) = 0 /\
  List.length (sync_log (db (fst (fst r)))) = 3%nat.
Proof.
  intros s w r.
  assert (Hc : _get_unsynced_count (db s) <> 0) by discriminate.
  assert (Hfail : forall i, (i < 2)%nat ->
             Qltb (1 # 10) (random_draws w (draws_taken w + i)) = false).
  { intros i Hi. destruct i as [|[|i]]; [reflexivity | reflexivity | lia]. }
  destruct (sync_retries_until_delivered 2 w s eq_refl Hc Hfail eq_refl)
    as (H0 & Hlog & _).
  split; [exact H0 | exact Hlog].
Defined.

End SyncMore.

(** ** Statistics *)

Section Statistics.

Import DataManager.








(** X18: The pending counter of the manager and the [unsynced_count] of the
    database statistics both count the unsynced metric samples only: once
    they agree they agree after any inserts, session closings and sync
    triggers, and they never exceed the number of unsynced records that the
    sync engine works with, which also counts sessions and blink events. *)
Theorem pending_counts_unsynced_metrics :
  forall (ops : list op) (s : t) (w : world) (file_size : Z),
    pending_sync_count s = unsynced_count (get_database_stats file_size s) ->
    let s' := fst (exec_all ops (s, w)) in
    pending_sync_count s' = unsynced_count (get_database_stats file_size s') /\
    unsynced_count (get_database_stats file_size s')
      = Z.of_nat (List.length (unsynced_metrics (db s'))) /\
    unsynced_count (get_database_stats file_size s') <= _get_unsynced_count (db s').
Proof.
  intros ops s w file_size Hinit s'.
  assert (Hgen : forall c : t * world,
             pending_sync_count (fst c)
               = count_where (fun r => sm_synced r =? 0) (system_metrics (db (fst c))) ->
             pending_sync_count (fst (exec_all ops c))
               = count_where (fun r => sm_synced r =? 0)
                   (system_metrics (db (fst (exec_all ops c))))).
  { induction ops as [|o ops IH]; intros c Hc; [exact Hc|].
    change (exec_all (o :: ops) c) with (exec_all ops (exec o c)).
    apply IH. destruct c as [x wx]. cbn [fst] in Hc.
    destruct o as [i|now sid n bpm|]; cbn [exec fst].
    - destruct i; cbn [do_insert save_session_data save_blink_event
        start_eye_session fst db with_db pending_sync_count system_metrics];
        try exact Hc.
      rewrite count_where_snoc. cbn. lia.
    - exact Hc.
    - destruct (is_syncing x) eqn:Hflag.
      + rewrite sync_data_guard by exact Hflag. exact Hc.
      + rewrite sync_data_cases by exact Hflag. cbv zeta.
        destruct (_get_unsynced_count (db x) =? 0); [exact Hc|].
        destruct (fst (_simulate_cloud_sync wx));
          cbn [fst db pending_sync_count _log_sync_result system_metrics
               _mark_records_as_synced]; [|exact Hc].
        unfold count_where.
        rewrite (filter_map_none _ mark_metric) by apply mark_metric_synced.
        reflexivity. }
  split; [apply (Hgen (s, w)); exact Hinit|].
  split; [reflexivity|].
  unfold get_database_stats, _get_unsynced_count, count_where.
  cbn [unsynced_count]. lia.
Qed.

Lemma pending_counts_unsynced_metrics_witness :
  let ops := [Insert (session 10 "u1");
              Insert (metric_sample 20 (EyeTracker.get_current_data 20 EyeTracker.init)
                        (SystemMonitor.init (Returns 0)));
              Insert (blink 30 "u1" (Some 1))] in
  let w := mk_world 1000 (fun _ => 1 # 20) 0 in
  let s' := fst (exec_all (ops ++ [Sync]) (init empty, w)) in
  pending_sync_count s' = 1 /\ _get_unsynced_count (db s') = 3.
Proof.
  intros ops w s'.
  destruct (pending_counts_unsynced_metrics (ops ++ [Sync]) (init empty) w 0 eq_refl)
    as (Hp & _).
  split; [|reflexivity].
  etransitivity; [exact Hp | reflexivity].
Defined.

End Statistics.

(** ** The dashboard *)

Section DashboardSpec.

Import Dashboard.

(** X19: The label that [update_display] shows for a rate and the strain level
    that [end_eye_session] stores for it always name the same class. *)
Theorem strain_label_matches_stored_level :
  forall (bpm : Q),
    (eye_strain_text bpm = "High Strain"%string
       <-> DataManager.strain_level bpm = "high"%string) /\
    (eye_strain_text bpm = "Moderate"%string
       <-> DataManager.strain_level bpm = "moderate"%string) /\
    (eye_strain_text bpm = "Normal"%string
       <-> DataManager.strain_level bpm = "normal"%string).
Proof.
  intros bpm. unfold eye_strain_text, DataManager.strain_level.
  destruct (Qltb bpm 10); [|destruct (Qltb bpm 15)];
    repeat split; intros H; try reflexivity; discriminate H.
Qed.

Lemma strain_label_matches_stored_level_witness :
  eye_strain_text (19 # 2) = "High Strain"%string /\
  DataManager.strain_level 10 = "moderate"%string.
Proof.
  destruct (strain_label_matches_stored_level (19 # 2)) as ((_ & Hhigh) & _).
  destruct (strain_label_matches_stored_level 10) as (_ & (Hmod & _) & _).
  split; [apply Hhigh | apply Hmod]; reflexivity.
Defined.

(** The power impact shown is 1.2 times the CPU reading, capped at 100. *)
Theorem power_impact_capped :
  forall (cpu : Q),
    (power_impact cpu <= 100)%Q /\
    (power_impact cpu <= cpu * (12 # 10))%Q /\
    ((cpu * (12 # 10) <= 100)%Q -> (power_impact cpu == cpu * (12 # 10))%Q) /\
    ((100 <= cpu * (12 # 10))%Q -> (power_impact cpu == 100)%Q).
Proof.
  intros cpu. unfold power_impact, py_min.
  destruct (Qltb (cpu * (12 # 10)) 100) eqn:E.
  - apply Qltb_lt in E. split; [now apply Qlt_le_weak|].
    split; [apply Qle_refl|]. split; [reflexivity|].
    intros H. exfalso. apply (Qlt_irrefl 100). eapply Qle_lt_trans; eassumption.
  - apply Qltb_ge in E. split; [apply Qle_refl|]. split; [exact E|].
    split; [|reflexivity]. intros H. now apply Qle_antisym.
Qed.

Lemma power_impact_capped_witness :
  (power_impact 50 == 60)%Q /\ (power_impact 90 == 100)%Q.
Proof.
  destruct (power_impact_capped 50) as (_ & _ & Hlow & _).
  destruct (power_impact_capped 90) as (_ & _ & _ & Hhigh).
  split; [|apply Hhigh; discriminate].
  eapply Qeq_trans; [apply Hlow; discriminate | reflexivity].
Defined.



(** X21: Starting the monitoring starts both samplers and a fresh blink session
    without touching the store; starting while monitoring does nothing; and
    two presses of the toggle, from idle, leave the samplers stopped and one
    more metric sample in the store. *)
Theorem toggle_monitoring_twice :
  forall (t0 t1 : datetime) (cam cam' : bool) (iv iv' : Z) (s : t),
    is_monitoring s = false ->
    EyeTracker.is_running (eye_tracker s) = false ->
    let on := toggle_monitoring t0 cam iv s in
    let off := toggle_monitoring t1 cam' iv' on in
    is_monitoring on = true /\
    data_manager on = data_manager s /\
    EyeTracker.is_running (eye_tracker on) = true /\
    SystemMonitor.is_running (system_monitor on) = true /\
    EyeTracker.total_blinks (eye_tracker on) = 0 /\
    EyeTracker.session_start_time (eye_tracker on) = Some t0 /\
    start_monitoring t1 cam' iv' on = on /\
    is_monitoring off = false /\
    EyeTracker.is_running (eye_tracker off) = false /\
    SystemMonitor.is_running (system_monitor off) = false /\
    Z.of_nat (List.length (DataManager.system_metrics (DataManager.db (data_manager off))))
    = Z.of_nat (List.length (DataManager.system_metrics (DataManager.db (data_manager s)))) + 1.
Proof.
  intros t0 t1 cam cam' iv iv' s Hidle Heye on off.
  assert (Hon : on = {| eye_tracker := fst (EyeTracker.start t0 cam iv (eye_tracker s));
                        system_monitor := fst (SystemMonitor.start (system_monitor s));
                        data_manager := data_manager s;
                        is_monitoring := true |}).
  { subst on. unfold toggle_monitoring, start_monitoring. now rewrite Hidle. }
  assert (Heye_on : EyeTracker.is_running (eye_tracker on) = true
                    /\ EyeTracker.total_blinks (eye_tracker on) = 0
                    /\ EyeTracker.session_start_time (eye_tracker on) = Some t0).
  { rewrite Hon. cbn [eye_tracker]. unfold EyeTracker.start. rewrite Heye.
    repeat split. }
  assert (Hmon_on : SystemMonitor.is_running (system_monitor on) = true).
  { rewrite Hon. cbn [system_monitor]. unfold SystemMonitor.start.
    now destruct (SystemMonitor.is_running (system_monitor s)) eqn:E. }
  assert (Hflag_on : is_monitoring on = true) by now rewrite Hon.
  destruct Heye_on as (Hrun & Htot & Hstart).
  assert (Hoff : off = stop_monitoring t1 on).
  { subst off. unfold toggle_monitoring. now rewrite Hflag_on. }
  split; [exact Hflag_on|]. split; [now rewrite Hon|].
  split; [exact Hrun|]. split; [exact Hmon_on|].
  split; [exact Htot|]. split; [exact Hstart|].
  split; [unfold start_monitoring; now rewrite Hflag_on|].
  rewrite Hoff. unfold stop_monitoring, save_data. rewrite Hflag_on.
  cbn [negb is_monitoring eye_tracker system_monitor data_manager].
  rewrite ?Hflag_on.
  cbn [is_monitoring eye_tracker system_monitor data_manager
       DataManager.save_session_data fst DataManager.db
       DataManager.system_metrics].
  split; [reflexivity|].
  split; [unfold EyeTracker.stop; rewrite Hrun; reflexivity|].
  split; [unfold SystemMonitor.stop; rewrite Hmon_on; reflexivity|].
  rewrite length_app, Hon. cbn [List.length data_manager]. lia.
Qed.

Lemma toggle_monitoring_twice_witness :
  let idle := {| eye_tracker := EyeTracker.init;
                 system_monitor :=
                   SystemMonitor.mk false false (SystemMonitor.init (Returns 0));
                 data_manager := DataManager.init DataManager.empty;
                 is_monitoring := false |} in
  let off := toggle_monitoring 9 true 0 (toggle_monitoring 0 true 0 idle) in
  is_monitoring off = false /\
  List.length (DataManager.system_metrics (DataManager.db (data_manager off))) = 1%nat.
Proof.
  intros idle off.
  destruct (toggle_monitoring_twice 0 9 true true 0 0 idle eq_refl eq_refl)
    as (_ & _ & _ & _ & _ & _ & _ & Hflag & _ & _ & Hlen).
  split; [exact Hflag|]. apply Nat2Z.inj. exact Hlen.
Defined.

End DashboardSpec.
